(** * UEM Dashboard backend: the aggregation endpoint, the demo seeder and the
    schema endpoint of [main.py], with the record shapes of [schemas.py].

    The handlers follow the source line by line.  The document store they
    talk to (the [db] handle of [database.py], a MongoDB database) lives
    outside these two files: its operations are modelled from the store
    contract of the specification and carry a comment saying so. *)

From Stdlib Require Import Ascii.
From stdpp Require Import gmap strings list sorting pretty.

(** ** Stored values and documents *)

(** The values a document field can hold: Python [None] / BSON null, booleans,
    integers, strings, datetimes (an instant, as a count of clock ticks since
    the epoch) and object identifiers (the twelve bytes read as one big-endian
    number). *)
Inductive value : Type :=
  | VNone
  | VBool (b : bool)
  | VInt (z : Z)
  | VStr (s : string)
  | VDatetime (t : Z)
  | VObjectId (o : N).

#[global] Instance value_eq_dec : EqDecision value.
Proof. solve_decision. Defined.

#[global] Instance value_inhabited : Inhabited value := populate VNone.

(** A document is a Python dict with string keys. *)
Abbreviation document := (gmap string value).

(** Reading a field the way the store does when it sorts or groups: a missing
    field counts as null. *)
Definition field_or_null (k : string) (d : document) : value :=
  default VNone (d !! k).

(** *** The store's comparison order

    Values of different kinds are ordered by kind (null, numbers, strings,
    object ids, booleans, dates); values of one kind by their natural order. *)
Definition bson_rank (v : value) : nat :=
  match v with
  | VNone => 1
  | VInt _ => 2
  | VStr _ => 3
  | VObjectId _ => 7
  | VBool _ => 8
  | VDatetime _ => 9
  end.

Definition bson_le (v w : value) : Prop :=
  match v, w with
  | VNone, VNone => True
  | VInt a, VInt b => (a ≤ b)%Z
  | VStr a, VStr b => String.le a b
  | VObjectId a, VObjectId b => (a ≤ b)%N
  | VBool a, VBool b => bool_le a b
  | VDatetime a, VDatetime b => (a ≤ b)%Z
  | _, _ => bson_rank v < bson_rank w
  end.

#[global] Instance bson_le_dec : RelDecision bson_le.
Proof. intros [] []; simpl; apply _. Defined.

(** *** Python's [str] on stored values *)

Definition hex_digit (n : N) : ascii :=
  match n with
  | 0 => "0" | 1 => "1" | 2 => "2" | 3 => "3" | 4 => "4" | 5 => "5"
  | 6 => "6" | 7 => "7" | 8 => "8" | 9 => "9" | 10 => "a" | 11 => "b"
  | 12 => "c" | 13 => "d" | 14 => "e" | _ => "f"
  end%N%char.

Fixpoint hex_digits (k : nat) (n : N) (acc : string) : string :=
  match k with
  | O => acc
  | S k' => hex_digits k' (n `div` 16)%N (String (hex_digit (n `mod` 16)%N) acc)
  end.

(** [str] of an object id: its twelve bytes as 24 hexadecimal digits. *)
Definition str_ObjectId (o : N) : string := hex_digits 24 o "".

(** ** The document store *)

(** The three collections the application uses; each holds its documents in
    insertion order. *)
Inductive collection : Type := c_device | c_alert | c_smartperformance.

#[global] Instance collection_eq_dec : EqDecision collection.
Proof. solve_decision. Defined.

Record database : Type := Database {
  device : list document;
  alert : list document;
  smartperformance : list document
}.

(** [db[name]] *)
Definition coll (st : database) (c : collection) : list document :=
  match c with
  | c_device => device st
  | c_alert => alert st
  | c_smartperformance => smartperformance st
  end.

Definition set_coll (st : database) (c : collection) (l : list document)
    : database :=
  match c with
  | c_device => Database l (alert st) (smartperformance st)
  | c_alert => Database (device st) l (smartperformance st)
  | c_smartperformance => Database (device st) (alert st) l
  end.

(** A query filter [{k1: v1, ...}]; the empty filter [{}] matches everything. *)
Abbreviation query := (list (string * value)).

Definition matches (q : query) (d : document) : bool :=
  forallb (λ kv, bool_decide (d !! kv.1 = Some kv.2)) q.

(** The requests a handler sends to the store. *)
Inductive store_op : Type :=
  | CountDocuments (c : collection) (q : query)
  | Find (c : collection) (sort_key : string) (direction : Z) (limit : nat)
  | Aggregate (c : collection) (group_field : string)
  | InsertMany (c : collection) (docs : list document)
  | InsertOne (c : collection) (doc : document).

Definition is_write (o : store_op) : bool :=
  match o with
  | InsertMany _ _ | InsertOne _ _ => true
  | _ => false
  end.

Definition op_collection (o : store_op) : collection :=
  match o with
  | CountDocuments c _ | Find c _ _ _ | Aggregate c _
  | InsertMany c _ | InsertOne c _ => c
  end.

(** A computation against a connected store: it returns a value, the store
    afterwards, and the requests it sent, oldest first. *)
Definition DB (A : Type) : Type := database → A * database * list store_op.

#[global] Instance DB_ret : MRet DB := λ A a st, (a, st, []).

#[global] Instance DB_bind : MBind DB := λ A B k m st,
  let '(a, st1, t1) := m st in
  let '(b, st2, t2) := k a st1 in
  (b, st2, t1 ++ t2).

(** *** Sorting *)

(** [sort(key, direction)]: ascending for a positive direction, descending for
    a negative one. *)
Definition sort_order (key : string) (direction : Z) : relation document :=
  λ d1 d2,
    if decide (direction < 0)%Z
    then bson_le (field_or_null key d2) (field_or_null key d1)
    else bson_le (field_or_null key d1) (field_or_null key d2).

#[global] Instance sort_order_dec key direction :
  RelDecision (sort_order key direction).
Proof. intros d1 d2. unfold sort_order. destruct (decide _); apply _. Defined.

Definition sort_docs (key : string) (direction : Z) (l : list document)
    : list document :=
  merge_sort (sort_order key direction) l.

(** [$sort: {count: -1}] on the rows of a grouping. *)
Definition count_desc : relation (value * nat) := λ r1 r2, r2.2 ≤ r1.2.

#[global] Instance count_desc_dec : RelDecision count_desc.
Proof. intros r1 r2. unfold count_desc. apply _. Defined.

(** *** Grouping *)

(** [$group: {_id: "$field", count: {$sum: 1}}]: one pass over the keys,
    adding one to the row of a key seen before and opening a row otherwise. *)
Fixpoint bump (k : value) (acc : list (value * nat)) : list (value * nat) :=
  match acc with
  | [] => [(k, 1)]
  | (k', n) :: acc' =>
      if decide (k = k') then (k', S n) :: acc' else (k', n) :: bump k acc'
  end.

Definition group_count (keys : list value) : list (value * nat) :=
  foldl (λ acc k, bump k acc) [] keys.

(** *** Identifiers on insert *)

(** The next free object id of a collection: one more than the largest object
    id in it. *)
Definition next_oid (l : list document) : N :=
  foldr (λ d n, match d !! "_id" with
                | Some (VObjectId o) => N.max (N.succ o) n
                | _ => n
                end) 0%N l.

Definition with_id (l : list document) (d : document) : document :=
  match d !! "_id" with
  | Some _ => d
  | None => <["_id" := VObjectId (next_oid l)]> d
  end.

(** Modelled from the spec: [insertOne(record)] of the store adapter, whose
    code is missing: it appends the record, assigning an insertion-order
    identifier if it has none. *)
Definition append_doc (l : list document) (d : document) : list document :=
  l ++ [with_id l d].

(** *** The operations of the store *)

(** Modelled from the spec: [count(filter)] of the store adapter, whose code
    is missing: the number of matching records. *)
Definition count_where (q : query) (l : list document) : nat :=
  length (filter (λ d, matches q d) l).

(** Modelled from the spec: [find(filter, sort, limit)] of the store adapter,
    whose code is missing, with the empty filter: at most [limit] records,
    ordered by the given key and direction. *)
Definition find_docs (key : string) (direction : Z) (limit : nat)
    (l : list document) : list document :=
  take limit (sort_docs key direction l).

(** Modelled from the spec: [groupByCount(field)] of the store adapter, whose
    code is missing: each distinct value of the field with its occurrence
    count, ordered by count descending. *)
Definition group_by_count (group_field : string) (l : list document)
    : list (value * nat) :=
  merge_sort count_desc (group_count (field_or_null group_field <$> l)).

(** Modelled from the spec: [insertMany(records)] of the store adapter, whose
    code is missing: it appends the records, [insertOne] after [insertOne]. *)
Definition append_docs (l docs : list document) : list document :=
  foldl append_doc l docs.

(** The same operations as requests to the connected store. *)

Definition count_documents (c : collection) (q : query) : DB nat :=
  λ st, (count_where q (coll st c), st, [CountDocuments c q]).

Definition find_sorted (c : collection) (key : string) (direction : Z)
    (limit : nat) : DB (list document) :=
  λ st, (find_docs key direction limit (coll st c), st,
         [Find c key direction limit]).

(** [find_one(sort=[(key, direction)])]: the first record of that order, or
    nothing. *)
Definition find_one (c : collection) (key : string) (direction : Z)
    : DB (option document) :=
  l ← find_sorted c key direction 1; mret (head l).

Definition aggregate (c : collection) (group_field : string)
    : DB (list (value * nat)) :=
  λ st, (group_by_count group_field (coll st c), st,
         [Aggregate c group_field]).

Definition insert_many (c : collection) (docs : list document) : DB unit :=
  λ st, (tt, set_coll st c (append_docs (coll st c) docs),
         [InsertMany c docs]).

Definition insert_one (c : collection) (doc : document) : DB unit :=
  λ st, (tt, set_coll st c (append_doc (coll st c) doc), [InsertOne c doc]).

(** ** Requests, responses and the process-wide handle *)

Record HTTPException : Type := {
  status_code : Z;
  detail : string
}.

(** What a request leaves behind: the response (or the exception raised), the
    state of the [db] handle afterwards ([None]: no store configured) and the
    requests sent to the store while it ran. *)
Record outcome (A : Type) : Type := Outcome {
  response : HTTPException + A;
  db_after : option database;
  ops : list store_op
}.
Arguments Outcome {A} _ _ _.
Arguments response {A} _.
Arguments db_after {A} _.
Arguments ops {A} _.

Definition raise {A} (e : HTTPException) (db : option database) : outcome A :=
  Outcome (inl e) db [].

Definition run {A} (body : DB A) (st : database) : outcome A :=
  let '(a, st', t) := body st in Outcome (inr a) (Some st') t.

(** [if cond: stmt] *)
Definition when (cond : bool) (stmt : DB unit) : DB unit :=
  if cond then stmt else mret tt.

(** A dict literal. *)
Definition dict (items : list (string * value)) : document :=
  list_to_map items.

(** ** [schemas.py] *)

Inductive annotation : Type :=
  | TStr
  | TBool
  | TInt
  | TDatetime
  | TLiteral (choices : list string)
  | TOptional (a : annotation).

Inductive field_default : Type :=
  | Required
  | Default (v : value)
  | DefaultFactory (factory : string).

Record FieldInfo : Type := Field {
  f_name : string;
  f_annotation : annotation;
  f_default : field_default;
  f_description : option string;
  f_ge : option Z
}.

Record BaseModel : Type := {
  model_name : string;
  model_fields : list FieldInfo
}.

Definition Device : BaseModel := {|
  model_name := "Device";
  model_fields := [
    Field "device_id" TStr Required (Some "Unique device identifier") None;
    Field "hostname" TStr Required (Some "Device hostname") None;
    Field "type" (TLiteral ["laptop"; "desktop"]) Required
      (Some "Form factor") None;
    Field "manufacturer" TStr Required (Some "Manufacturer name") None;
    Field "installed" TBool Required
      (Some "Whether UEM agent is installed") None;
    Field "os" (TOptional TStr) (Default VNone)
      (Some "Operating system") None ]
|}.

Definition Alert : BaseModel := {|
  model_name := "Alert";
  model_fields := [
    Field "device_id" TStr Required (Some "Related device id") None;
    Field "severity" (TLiteral ["critical"; "warning"; "info"]) Required
      None None;
    Field "component" (TLiteral ["CPU"; "HDD"; "RAM"; "Battery"]) Required
      None None;
    Field "message" TStr Required None None;
    Field "timestamp" TDatetime (DefaultFactory "datetime.utcnow") None None ]
|}.

Definition SmartPerformance : BaseModel := {|
  model_name := "SmartPerformance";
  model_fields := [
    Field "period" TStr Required
      (Some "Aggregation period label, e.g., 'today', 'week', 'month'") None;
    Field "disk_reclaimed_count" TInt (Default (VInt 0)) None (Some 0%Z);
    Field "tune_pc_fix_count" TInt (Default (VInt 0)) None (Some 0%Z);
    Field "malware_fix_count" TInt (Default (VInt 0)) None (Some 0%Z);
    Field "internet_performance_count" TInt (Default (VInt 0)) None
      (Some 0%Z) ]
|}.

(** The schema of one field: its name, type, constraints and default. *)
Record property_schema : Type := {
  p_name : string;
  p_type : annotation;
  p_description : option string;
  p_minimum : option Z;
  p_default : option value
}.

Record json_schema : Type := {
  title : string;
  properties : list property_schema;
  required : list string
}.

Definition is_required (f : FieldInfo) : bool :=
  match f_default f with Required => true | _ => false end.

(** Modelled from the spec: [model_json_schema()] of the validation library,
    whose code is missing: an entity's field definitions (name, type,
    constraints, required/optional) as a static structure. *)
Definition model_json_schema (m : BaseModel) : json_schema := {|
  title := model_name m;
  properties :=
    (λ f, {| p_name := f_name f;
             p_type := f_annotation f;
             p_description := f_description f;
             p_minimum := f_ge f;
             p_default := match f_default f with
                          | Default v => Some v
                          | _ => None
                          end |}) <$> model_fields m;
  required := f_name <$> filter (λ f, is_required f) (model_fields m)
|}.

(** ** The dashboard summary *)

Record SmartPerformanceCounters : Type := {
  disk_reclaimed_count : value;
  tune_pc_fix_count : value;
  malware_fix_count : value;
  internet_performance_count : value
}.

Record ManufacturerCount : Type := {
  manufacturer : value;
  m_count : nat
}.

Record ComponentCount : Type := {
  component : value;
  c_count : nat
}.

Record DeviceInfo : Type := {
  total : nat;
  installed : nat;
  not_installed : nat;
  laptops : nat;
  desktops : nat;
  manufacturers : list ManufacturerCount
}.

Record AlertsInfo : Type := {
  critical : nat;
  warning : nat;
  by_component : list ComponentCount;
  top5 : list document
}.

Record DashboardSummary : Type := {
  smart_performance : SmartPerformanceCounters;
  device_info : DeviceInfo;
  alerts : AlertsInfo
}.

(** ** [main.py] *)

Section Handlers.

(** The text [str] gives for a datetime is the datetime library's business;
    it is taken as given. *)
Variable str_datetime : Z → string.

Definition py_str (v : value) : string :=
  match v with
  | VNone => "None"
  | VBool true => "True"
  | VBool false => "False"
  | VInt z => pretty z
  | VStr s => s
  | VDatetime t => str_datetime t
  | VObjectId o => str_ObjectId o
  end.

Definition not_configured : HTTPException :=
  {| status_code := 500; detail := "Database not configured" |}.

(** The sample records of the seeder. *)
Definition devices : list document := [
  dict [("device_id", VStr "D-1001"); ("hostname", VStr "LAPTOP-01");
        ("type", VStr "laptop"); ("manufacturer", VStr "Dell");
        ("installed", VBool true); ("os", VStr "Windows 11")];
  dict [("device_id", VStr "D-1002"); ("hostname", VStr "DESKTOP-01");
        ("type", VStr "desktop"); ("manufacturer", VStr "HP");
        ("installed", VBool false); ("os", VStr "Windows 10")];
  dict [("device_id", VStr "D-1003"); ("hostname", VStr "LAPTOP-02");
        ("type", VStr "laptop"); ("manufacturer", VStr "Lenovo");
        ("installed", VBool true); ("os", VStr "Windows 11")];
  dict [("device_id", VStr "D-1004"); ("hostname", VStr "DESKTOP-02");
        ("type", VStr "desktop"); ("manufacturer", VStr "Dell");
        ("installed", VBool true); ("os", VStr "Windows 10")];
  dict [("device_id", VStr "D-1005"); ("hostname", VStr "LAPTOP-03");
        ("type", VStr "laptop"); ("manufacturer", VStr "Acer");
        ("installed", VBool false); ("os", VStr "Windows 10")] ].

(** [utcnow k] is what the clock shows at the seeder's [k]-th reading of it
    (counting from zero). *)
Definition sample_alerts (utcnow : nat → Z) : list document := [
  dict [("device_id", VStr "D-1001"); ("severity", VStr "critical");
        ("component", VStr "CPU"); ("message", VStr "CPU over 95% for 10m");
        ("timestamp", VDatetime (utcnow 0))];
  dict [("device_id", VStr "D-1002"); ("severity", VStr "warning");
        ("component", VStr "HDD"); ("message", VStr "Disk fragmented");
        ("timestamp", VDatetime (utcnow 1))];
  dict [("device_id", VStr "D-1003"); ("severity", VStr "warning");
        ("component", VStr "RAM"); ("message", VStr "High memory usage");
        ("timestamp", VDatetime (utcnow 2))];
  dict [("device_id", VStr "D-1004"); ("severity", VStr "critical");
        ("component", VStr "Battery"); ("message", VStr "Battery health low");
        ("timestamp", VDatetime (utcnow 3))];
  dict [("device_id", VStr "D-1005"); ("severity", VStr "warning");
        ("component", VStr "CPU");
        ("message", VStr "Background process spike");
        ("timestamp", VDatetime (utcnow 4))];
  dict [("device_id", VStr "D-1001"); ("severity", VStr "critical");
        ("component", VStr "HDD"); ("message", VStr "SMART errors detected");
        ("timestamp", VDatetime (utcnow 5))] ].

Definition perf : document :=
  dict [("period", VStr "week");
        ("disk_reclaimed_count", VInt 120);
        ("tune_pc_fix_count", VInt 85);
        ("malware_fix_count", VInt 32);
        ("internet_performance_count", VInt 74)].

(** [POST /seed] *)
Definition seed_demo_data (db : option database) (utcnow : nat → Z)
    : outcome document :=
  match db with
  | None => raise not_configured db
  | Some st =>
      run (n_device ← count_documents c_device [];
           when (bool_decide (n_device = 0))
             (insert_many c_device devices);;
           n_alert ← count_documents c_alert [];
           when (bool_decide (n_alert = 0))
             (insert_many c_alert (sample_alerts utcnow));;
           n_perf ← count_documents c_smartperformance [];
           when (bool_decide (n_perf = 0))
             (insert_one c_smartperformance perf);;
           mret (dict [("status", VStr "ok")])) st
  end.

(** [x or {}] *)
Definition or_empty (x : option document) : document :=
  match x with
  | Some d => if decide (d = ∅) then ∅ else d
  | None => ∅
  end.

(** [d.get(k, 0)] *)
Definition get_or_0 (d : document) (k : string) : value :=
  default (VInt 0) (d !! k).

(** [a["id"] = str(a.pop("_id", ""))] *)
Definition rename_id (a : document) : document :=
  <["id" := VStr (py_str (default (VStr "") (a !! "_id")))]> (delete "_id" a).

(** [GET /dashboard] *)
Definition get_dashboard (db : option database) : outcome DashboardSummary :=
  match db with
  | None => raise not_configured db
  | Some st =>
      run (latest ← find_one c_smartperformance "_id" (-1);
           let sp := or_empty latest in
           total_devices ← count_documents c_device [];
           installed_count ←
             count_documents c_device [("installed", VBool true)];
           not_installed_count ←
             count_documents c_device [("installed", VBool false)];
           laptop_count ← count_documents c_device [("type", VStr "laptop")];
           desktop_count ←
             count_documents c_device [("type", VStr "desktop")];
           by_manufacturer ← aggregate c_device "manufacturer";
           let manufacturer_counts :=
             (λ d, {| manufacturer := d.1; m_count := d.2 |})
               <$> by_manufacturer in
           critical_count ←
             count_documents c_alert [("severity", VStr "critical")];
           warning_count ←
             count_documents c_alert [("severity", VStr "warning")];
           by_comp ← aggregate c_alert "component";
           let alerts_by_component :=
             (λ d, {| component := d.1; c_count := d.2 |}) <$> by_comp in
           found ← find_sorted c_alert "timestamp" (-1) 5;
           let top_alerts := rename_id <$> found in
           mret {|
             smart_performance := {|
               disk_reclaimed_count := get_or_0 sp "disk_reclaimed_count";
               tune_pc_fix_count := get_or_0 sp "tune_pc_fix_count";
               malware_fix_count := get_or_0 sp "malware_fix_count";
               internet_performance_count :=
                 get_or_0 sp "internet_performance_count" |};
             device_info := {|
               total := total_devices;
               installed := installed_count;
               not_installed := not_installed_count;
               laptops := laptop_count;
               desktops := desktop_count;
               manufacturers := manufacturer_counts |};
             alerts := {|
               critical := critical_count;
               warning := warning_count;
               by_component := alerts_by_component;
               top5 := top_alerts |} |}) st
  end.

(** [GET /schema] *)
Definition get_schema_definitions (db : option database)
    : outcome (list (string * json_schema)) :=
  Outcome (inr [("device", model_json_schema Device);
                ("alert", model_json_schema Alert);
                ("smartperformance", model_json_schema SmartPerformance)])
          db [].

End Handlers.

(** ** Vocabulary of the statements *)

(** How many of the keys equal [v]. *)
Definition occurrences (v : value) (keys : list value) : nat :=
  length (filter (λ k, k = v) keys).

(** How many documents carry the value [v] in field [k] (a missing field
    reads as null). *)
Definition records_with (k : string) (v : value) (l : list document) : nat :=
  occurrences v (field_or_null k <$> l).

(** The count a grouping holds for [v] (zero when it has no row for it). *)
Fixpoint count_of (v : value) (rows : list (value * nat)) : nat :=
  match rows with
  | [] => 0
  | (k, n) :: rest => if decide (v = k) then n else count_of v rest
  end.

(** Newest first. *)
Definition newer_first (key : string) : relation document :=
  λ d1 d2, bson_le (field_or_null key d2) (field_or_null key d1).

(** What [rename_id] promises about an entry [e] made from a record [d]. *)
Definition id_replaced (str_datetime : Z → string) (d e : document) : Prop :=
  e !! "_id" = None
  ∧ e !! "id"
    = Some (VStr (py_str str_datetime (default (VStr "") (d !! "_id"))))
  ∧ ∀ k, k ≠ "_id" → k ≠ "id" → e !! k = d !! k.

(** Reading counter [k] off record [d] gives [out]: the stored value, or 0
    when the record has no such field. *)
Definition reads_counter (d : document) (k : string) (out : value) : Prop :=
  match d !! k with
  | Some v => out = v
  | None => out = VInt 0
  end.

(** [stored] is [sample] as the store keeps it: the same fields, and an
    identifier. *)
Definition stored_from (sample stored : document) : Prop :=
  delete "_id" stored = sample ∧ is_Some (stored !! "_id").

(** Whether a run sent an insert to collection [c]. *)
Definition writes_to (c : collection) (requests : list store_op) : bool :=
  existsb (λ o, is_write o && bool_decide (op_collection o = c)) requests.

(** Every identifier in the collection is an object id, or of a kind the
    store orders below object ids. *)
Definition ids_at_most_oid (l : list document) : Prop :=
  Forall (λ d, bson_rank (field_or_null "_id" d) ≤ bson_rank (VObjectId 0)) l.

(** The store after a request, whatever the request returned. *)
Definition store_after {A} (request : DB A) (st : database) : database :=
  (request st).1.2.

Definition empty_store (st : database) : Prop :=
  ∀ c, coll st c = [].

(** The requests [GET /dashboard] sends, in order. *)
Definition dashboard_requests : list store_op := [
  Find c_smartperformance "_id" (-1) 1;
  CountDocuments c_device [];
  CountDocuments c_device [("installed", VBool true)];
  CountDocuments c_device [("installed", VBool false)];
  CountDocuments c_device [("type", VStr "laptop")];
  CountDocuments c_device [("type", VStr "desktop")];
  Aggregate c_device "manufacturer";
  CountDocuments c_alert [("severity", VStr "critical")];
  CountDocuments c_alert [("severity", VStr "warning")];
  Aggregate c_alert "component";
  Find c_alert "timestamp" (-1) 5 ].

(** The sample record set of a collection. *)
Definition samples (utcnow : nat → Z) (c : collection) : list document :=
  match c with
  | c_device => devices
  | c_alert => sample_alerts utcnow
  | c_smartperformance => [perf]
  end.

(** ** The remaining endpoints of [main.py] *)

(** [GET /] *)
Definition root : document :=
  dict [("message", VStr "UEM Dashboard Backend Running")].

(** The answer of [GET /test].  Texts are held one character of the source
    per character here, but for the pictograms of the literals, which take
    several; nothing below counts those. *)
Record TestResponse : Type := {
  r_backend : string;
  r_database : string;
  r_database_url : string;
  r_database_name : string;
  r_connection_status : string;
  r_collections : list string
}.

Definition set_database (text : string) (r : TestResponse) : TestResponse :=
  {| r_backend := r_backend r;
     r_database := text;
     r_database_url := r_database_url r;
     r_database_name := r_database_name r;
     r_connection_status := r_connection_status r;
     r_collections := r_collections r |}.

Definition set_connection_status (text : string) (r : TestResponse)
    : TestResponse :=
  {| r_backend := r_backend r;
     r_database := r_database r;
     r_database_url := r_database_url r;
     r_database_name := r_database_name r;
     r_connection_status := text;
     r_collections := r_collections r |}.

Definition set_collections (names : list string) (r : TestResponse)
    : TestResponse :=
  {| r_backend := r_backend r;
     r_database := r_database r;
     r_database_url := r_database_url r;
     r_database_name := r_database_name r;
     r_connection_status := r_connection_status r;
     r_collections := names |}.

(** Whether [os.getenv(name)] is truthy: the variable is set, and not to the
    empty text. *)
Definition getenv_truthy (environ : gmap string string) (name : string)
    : bool :=
  match environ !! name with
  | Some text => negb (bool_decide (text = ""))
  | None => false
  end.

(** [GET /test].  [environ] holds the environment variables;
    [list_collection_names] is what the store answers when asked for its
    collections: the text of the exception it raises, or the names.  The
    outer [except] of the source guards statements that raise nothing, the
    inner one having caught what the store raises. *)
Definition test_database (environ : gmap string string) (db : option database)
    (list_collection_names : database → string + list string)
    : TestResponse :=
  let response := {|
    r_backend := "✅ Running";
    r_database := "❌ Not Available";
    r_database_url :=
      if getenv_truthy environ "DATABASE_URL" then "✅ Set" else "❌ Not Set";
    r_database_name :=
      if getenv_truthy environ "DATABASE_NAME" then "✅ Set"
      else "❌ Not Set";
    r_connection_status := "Not Connected";
    r_collections := [] |} in
  match db with
  | Some st =>
      let response := set_database "✅ Connected" response in
      let response := set_connection_status "Connected" response in
      match list_collection_names st with
      | inr collections => set_collections (take 10 collections) response
      | inl e =>
          set_database
            ("⚠️ Connected but error: " +:+ String.substring 0 80 e) response
      end
  | None => set_database "⚠️ Available but not initialized" response
  end.

(** ** Records against [schemas.py] *)

(** Whether a stored value is of the annotated type. *)
Fixpoint has_type (a : annotation) (v : value) : bool :=
  match a, v with
  | TStr, VStr _ => true
  | TBool, VBool _ => true
  | TInt, VInt _ => true
  | TDatetime, VDatetime _ => true
  | TLiteral choices, VStr s => bool_decide (s ∈ choices)
  | TOptional _, VNone => true
  | TOptional a', _ => has_type a' v
  | _, _ => false
  end.

(** The lower bound [ge] of a field, if it declares one. *)
Definition above_bound (bound : option Z) (v : value) : bool :=
  match bound, v with
  | None, _ => true
  | Some lo, VInt z => bool_decide (lo ≤ z)%Z
  | Some _, _ => false
  end.

(** Modelled from the spec: the field constraints of an entity as the
    validation library, whose code is missing, checks them on a record: a
    field that is there has the declared type and respects its bound, one
    that is not there has a default.  Fields the entity does not declare are
    ignored. *)
Definition field_ok (f : FieldInfo) (d : document) : bool :=
  match d !! f_name f with
  | Some v => has_type (f_annotation f) v && above_bound (f_ge f) v
  | None => negb (is_required f)
  end.

Definition conforms (m : BaseModel) (d : document) : bool :=
  forallb (λ f, field_ok f d) (model_fields m).

(** The entity whose records a collection holds (collection name = lowercase
    class name). *)
Definition model_of (c : collection) : BaseModel :=
  match c with
  | c_device => Device
  | c_alert => Alert
  | c_smartperformance => SmartPerformance
  end.

(** ** Vocabulary of the further statements *)

(** What the seeder leaves in a collection that held [l]. *)
Definition seeded (utcnow : nat → Z) (c : collection) (l : list document)
    : list document :=
  if bool_decide (l = []) then append_docs [] (samples utcnow c) else l.

(** [a] is strictly older than [b] by the given key. *)
Definition older_than (key : string) : relation document :=
  λ a b, ¬ bson_le (field_or_null key b) (field_or_null key a).

(** In how many of the filters [qs] a record falls. *)
Definition filters_hit (qs : list query) (d : document) : nat :=
  sum_list ((λ q, Nat.b2n (matches q d)) <$> qs).

(** ** The store's orders *)

#[global] Instance bson_le_refl : Reflexive bson_le.
Proof.
  intros [| [] | | | |]; simpl; try done; try lia.
Qed.

#[global] Instance bson_le_trans : Transitive bson_le.
Proof.
  intros [| a | a | a | a | a] [| b | b | b | b | b] [| c | c | c | c | c];
    simpl; try lia; try done.
  all: try (destruct a, b, c; by compute).
  apply (transitivity (R := String.le)).
Qed.

#[global] Instance bson_le_total : Total bson_le.
Proof.
  intros [| a | a | a | a | a] [| b | b | b | b | b]; simpl;
    try lia; try (by left); try (by right).
  all: try (destruct a, b; compute; by auto).
  apply (base.total String.le).
Qed.

#[global] Instance sort_order_trans key direction :
  Transitive (sort_order key direction).
Proof.
  intros d1 d2 d3. unfold sort_order. destruct (decide _); intros.
  - by etrans.
  - by etrans.
Qed.

#[global] Instance sort_order_total key direction :
  Total (sort_order key direction).
Proof.
  intros d1 d2. unfold sort_order. destruct (decide _); apply (base.total bson_le).
Qed.

#[global] Instance count_desc_trans : Transitive count_desc.
Proof. unfold count_desc. intros ???; lia. Qed.

#[global] Instance count_desc_total : Total count_desc.
Proof. unfold count_desc. intros ??; lia. Qed.

Lemma sort_docs_perm key direction l : sort_docs key direction l ≡ₚ l.
Proof. apply merge_sort_Permutation. Qed.

Lemma sort_docs_sorted key direction l :
  StronglySorted (sort_order key direction) (sort_docs key direction l).
Proof. apply (StronglySorted_merge_sort _). Qed.

Lemma StronglySorted_take {A} (R : relation A) n l :
  StronglySorted R l → StronglySorted R (take n l).
Proof.
  intros H. revert n. induction H as [| x l Hl IH Hx]; intros [| n]; simpl;
    try constructor; auto.
  apply Forall_take. done.
Qed.

(** ** Grouping *)

Lemma count_of_bump v k acc :
  count_of v (bump k acc)
  = if decide (v = k) then S (count_of v acc) else count_of v acc.
Proof.
  induction acc as [| [k' n] acc IH]; simpl.
  - by destruct (decide (v = k)).
  - destruct (decide (k = k')) as [-> |]; simpl.
    + by destruct (decide (v = k')).
    + rewrite IH. destruct (decide (v = k')), (decide (v = k)); congruence.
Qed.

Lemma elem_of_bump_keys v k acc :
  v ∈ (bump k acc).*1 ↔ v = k ∨ v ∈ acc.*1.
Proof.
  induction acc as [| [k' n] acc IH]; simpl.
  - rewrite list_elem_of_singleton, elem_of_nil. tauto.
  - destruct (decide (k = k')) as [-> |]; simpl.
    + rewrite elem_of_cons. tauto.
    + rewrite !elem_of_cons, IH. tauto.
Qed.

Lemma bump_NoDup k acc : NoDup acc.*1 → NoDup (bump k acc).*1.
Proof.
  induction acc as [| [k' n] acc IH]; simpl; intros Hnd.
  - apply NoDup_singleton.
  - destruct (decide (k = k')) as [-> |]; simpl; [done |].
    apply NoDup_cons in Hnd as [Hk' Hnd]. apply NoDup_cons. split; [| auto].
    rewrite elem_of_bump_keys. intros [? | ?]; [congruence | done].
Qed.

Lemma bump_sum k acc : sum_list (bump k acc).*2 = S (sum_list acc.*2).
Proof.
  induction acc as [| [k' n] acc IH]; simpl; [done |].
  destruct (decide (k = k')); csimpl; [done |]. rewrite IH. lia.
Qed.

Lemma elem_of_rows v n rows :
  NoDup rows.*1 → (v, n) ∈ rows ↔ v ∈ rows.*1 ∧ count_of v rows = n.
Proof.
  induction rows as [| [k m] rows IH]; simpl; intros Hnd.
  - rewrite !elem_of_nil. tauto.
  - apply NoDup_cons in Hnd as [Hk Hnd]. specialize (IH Hnd).
    rewrite !elem_of_cons, IH. destruct (decide (v = k)) as [-> |].
    + split.
      * intros [[= ->] | [? _]]; [auto | done].
      * intros [_ <-]. by left.
    + split.
      * intros [[= -> ->] | [? ?]]; [done | auto].
      * intros [[-> | ?] ?]; [done | auto].
Qed.

Lemma occurrences_cons v k ks :
  occurrences v (k :: ks)
  = if decide (v = k) then S (occurrences v ks) else occurrences v ks.
Proof.
  unfold occurrences. rewrite filter_cons.
  destruct (decide (k = v)), (decide (v = k)); simpl; congruence.
Qed.

Lemma occurrences_positive v ks : 0 < occurrences v ks ↔ v ∈ ks.
Proof.
  induction ks as [| k ks IH]; [rewrite elem_of_nil; cbn; lia |].
  rewrite occurrences_cons, elem_of_cons.
  destruct (decide (v = k)); [split; [auto | lia] |].
  rewrite IH. split; [auto | by intros [|]].
Qed.

Section group_fold.
Implicit Types (acc : list (value * nat)) (ks : list value).

Let step := λ acc (k : value), bump k acc.

Lemma fold_count_of v ks acc :
  count_of v (foldl step acc ks) = count_of v acc + occurrences v ks.
Proof.
  revert acc. induction ks as [| k ks IH]; intros acc; simpl.
  - unfold occurrences. simpl. lia.
  - rewrite IH. unfold step. rewrite count_of_bump, occurrences_cons.
    destruct (decide (v = k)); lia.
Qed.

Lemma fold_keys v ks acc :
  v ∈ (foldl step acc ks).*1 ↔ v ∈ acc.*1 ∨ v ∈ ks.
Proof.
  revert acc. induction ks as [| k ks IH]; intros acc; simpl.
  - rewrite elem_of_nil. tauto.
  - rewrite IH. unfold step. rewrite elem_of_bump_keys, elem_of_cons. tauto.
Qed.

Lemma fold_NoDup ks acc : NoDup acc.*1 → NoDup (foldl step acc ks).*1.
Proof.
  revert acc. induction ks as [| k ks IH]; intros acc H; simpl; [done |].
  apply IH, bump_NoDup, H.
Qed.

Lemma fold_sum ks acc :
  sum_list (foldl step acc ks).*2 = sum_list acc.*2 + length ks.
Proof.
  revert acc. induction ks as [| k ks IH]; intros acc; simpl; [lia |].
  rewrite IH. unfold step. rewrite bump_sum. lia.
Qed.
End group_fold.

Lemma group_count_NoDup ks : NoDup (group_count ks).*1.
Proof. apply fold_NoDup. constructor. Qed.

Lemma elem_of_group_count v n ks :
  (v, n) ∈ group_count ks ↔ 0 < n ∧ n = occurrences v ks.
Proof.
  rewrite elem_of_rows by apply group_count_NoDup.
  unfold group_count. rewrite fold_keys, fold_count_of. simpl.
  rewrite elem_of_nil, <- occurrences_positive. split.
  - intros [[[] | ?] <-]. lia.
  - intros [? ->]. split; [right |]; lia.
Qed.

Lemma group_count_sum ks : sum_list (group_count ks).*2 = length ks.
Proof. unfold group_count. by rewrite fold_sum. Qed.

(** What [aggregate] returns, in the terms of the statements. *)

Lemma group_by_count_perm field l :
  group_by_count field l ≡ₚ group_count (field_or_null field <$> l).
Proof. apply merge_sort_Permutation. Qed.

Lemma group_by_count_NoDup field l : NoDup (group_by_count field l).*1.
Proof. rewrite group_by_count_perm. apply group_count_NoDup. Qed.

Lemma elem_of_group_by_count field l v n :
  (v, n) ∈ group_by_count field l ↔ 0 < n ∧ n = records_with field v l.
Proof. rewrite group_by_count_perm. apply elem_of_group_count. Qed.

Lemma group_by_count_sorted field l :
  StronglySorted count_desc (group_by_count field l).
Proof. apply (StronglySorted_merge_sort _). Qed.

Lemma group_by_count_sum field l :
  sum_list (group_by_count field l).*2 = length l.
Proof.
  rewrite group_by_count_perm, group_count_sum. apply length_fmap.
Qed.

(** ** Identifiers *)

Lemma next_oid_above l d o :
  d ∈ l → d !! "_id" = Some (VObjectId o) → (o < next_oid l)%N.
Proof.
  induction l as [| d' l IH]; [by intros ?%elem_of_nil |].
  intros [-> | Hin]%elem_of_cons Hd; simpl.
  - rewrite Hd. lia.
  - specialize (IH Hin Hd). destruct (d' !! "_id") as [[] |]; lia.
Qed.

Lemma with_id_fresh l d :
  d !! "_id" = None →
  field_or_null "_id" (with_id l d) = VObjectId (next_oid l).
Proof.
  intros Hd. unfold with_id, field_or_null. rewrite Hd.
  by rewrite lookup_insert_eq.
Qed.

Lemma with_id_keeps l d k : k ≠ "_id" → with_id l d !! k = d !! k.
Proof.
  intros Hk. unfold with_id. destruct (d !! "_id"); [done |].
  by rewrite lookup_insert_ne.
Qed.

(** A record the store gives an identifier to is newer than every record
    already there. *)
Lemma with_id_newest l d d' :
  d !! "_id" = None → ids_at_most_oid l → d' ∈ l →
  ¬ bson_le (field_or_null "_id" (with_id l d)) (field_or_null "_id" d').
Proof.
  intros Hd Hl Hin. rewrite with_id_fresh by done.
  unfold ids_at_most_oid in Hl. rewrite Forall_forall in Hl.
  specialize (Hl _ Hin). unfold field_or_null in *.
  destruct (d' !! "_id") as [v |] eqn:Hv; simpl in *; [| lia].
  destruct v; simpl in *; try lia.
  pose proof (next_oid_above _ _ _ Hin Hv). lia.
Qed.

Lemma with_id_stored l d : d !! "_id" = None → stored_from d (with_id l d).
Proof.
  intros Hd. unfold stored_from, with_id. rewrite Hd. split.
  - by apply delete_insert_id.
  - rewrite lookup_insert_eq. by eexists.
Qed.

(** Inserting records that carry no identifier appends them, in order, each
    with an identifier of its own. *)
Lemma append_docs_stored l docs :
  Forall (λ d, d !! "_id" = None) docs →
  ∃ stored, append_docs l docs = l ++ stored ∧ Forall2 stored_from docs stored.
Proof.
  intros Hdocs. revert l.
  induction Hdocs as [| d docs Hd _ IH]; intros l.
  - exists []. by rewrite app_nil_r.
  - destruct (IH (append_doc l d)) as (stored & Heq & HF).
    exists (with_id l d :: stored). split.
    + unfold append_docs in *. simpl. rewrite Heq. unfold append_doc.
      by rewrite <- app_assoc.
    + constructor; [by apply with_id_stored | done].
Qed.

Lemma samples_lack_id utcnow c :
  Forall (λ d, d !! "_id" = None) (samples utcnow c).
Proof.
  destruct c; repeat (constructor; [vm_compute; reflexivity |]); constructor.
Qed.

(** ** Counting and finding *)

Lemma StronglySorted_weaken {A} (R1 R2 : relation A) l :
  (∀ x y, R1 x y → R2 x y) → StronglySorted R1 l → StronglySorted R2 l.
Proof.
  intros HR Hs. induction Hs as [| x l Hl IH Hx]; constructor; [done |].
  eapply Forall_impl; eauto.
Qed.

Lemma matches_single k v d : matches [(k, v)] d ↔ d !! k = Some v.
Proof.
  unfold matches. simpl. rewrite andb_true_r. apply bool_decide_spec.
Qed.

(** Two filters that no record satisfies together select, between them, no
    more records than there are. *)
Lemma count_where_disjoint q1 q2 l :
  (∀ d, matches q1 d → matches q2 d → False) →
  count_where q1 l + count_where q2 l ≤ length l.
Proof.
  intros Hdisj. unfold count_where. induction l as [| d l IH]; [done |].
  rewrite !filter_cons.
  destruct (decide (matches q1 d)), (decide (matches q2 d)); simpl;
    [by destruct (Hdisj d) | lia ..].
Qed.

Lemma sort_order_desc key d1 d2 :
  sort_order key (-1) d1 d2 ↔ newer_first key d1 d2.
Proof. unfold sort_order, newer_first. by destruct (decide _). Qed.

Lemma sort_docs_newer_first key l :
  StronglySorted (newer_first key) (sort_docs key (-1) l).
Proof.
  eapply StronglySorted_weaken; [| apply sort_docs_sorted].
  intros d1 d2. apply sort_order_desc.
Qed.

Lemma find_docs_length key direction limit l :
  length (find_docs key direction limit l) = limit `min` length l.
Proof.
  unfold find_docs. by rewrite length_take, sort_docs_perm.
Qed.

(** The first record of a descending order is a record of the collection
    whose key no other record exceeds. *)
Lemma find_docs_first key l :
  l ≠ [] →
  ∃ d, head (find_docs key (-1) 1 l) = Some d
       ∧ d ∈ l
       ∧ ∀ d', d' ∈ l → bson_le (field_or_null key d') (field_or_null key d).
Proof.
  intros Hl. unfold find_docs.
  pose proof (sort_docs_perm key (-1) l) as Hp.
  pose proof (sort_docs_newer_first key l) as Hs.
  destruct (sort_docs key (-1) l) as [| d rest].
  - symmetry in Hp. by apply Permutation_nil_r in Hp.
  - exists d. split; [done |]. split.
    + rewrite <- Hp. by left.
    + intros d'. rewrite <- Hp. apply StronglySorted_cons in Hs as [Hd _].
      intros [-> | Hin]%elem_of_cons; [done |].
      rewrite Forall_forall in Hd. by apply Hd.
Qed.

Lemma find_docs_none key direction limit :
  find_docs key direction limit [] = [].
Proof. unfold find_docs. by destruct limit. Qed.

Lemma get_or_0_reads d k : reads_counter d k (get_or_0 (or_empty (Some d)) k).
Proof.
  unfold reads_counter, get_or_0, or_empty.
  destruct (decide (d = ∅)) as [-> |].
  - by rewrite lookup_empty.
  - by destruct (d !! k).
Qed.

(** ** The endpoints *)

Section Properties.

Variable str_datetime : Z → string.

(** [GET /dashboard] on a connected store, request by request. *)
Lemma get_dashboard_connected st :
  get_dashboard str_datetime (Some st)
  = Outcome
      (inr {|
         smart_performance :=
           let sp := or_empty (head (find_docs "_id" (-1) 1
                                       (smartperformance st))) in
           {| disk_reclaimed_count := get_or_0 sp "disk_reclaimed_count";
              tune_pc_fix_count := get_or_0 sp "tune_pc_fix_count";
              malware_fix_count := get_or_0 sp "malware_fix_count";
              internet_performance_count :=
                get_or_0 sp "internet_performance_count" |};
         device_info := {|
           total := count_where [] (device st);
           installed := count_where [("installed", VBool true)] (device st);
           not_installed :=
             count_where [("installed", VBool false)] (device st);
           laptops := count_where [("type", VStr "laptop")] (device st);
           desktops := count_where [("type", VStr "desktop")] (device st);
           manufacturers :=
             (λ d, {| manufacturer := d.1; m_count := d.2 |})
               <$> group_by_count "manufacturer" (device st) |};
         alerts := {|
           critical :=
             count_where [("severity", VStr "critical")] (alert st);
           warning := count_where [("severity", VStr "warning")] (alert st);
           by_component :=
             (λ d, {| component := d.1; c_count := d.2 |})
               <$> group_by_count "component" (alert st);
           top5 :=
             rename_id str_datetime
               <$> find_docs "timestamp" (-1) 5 (alert st) |} |})
      (Some st) dashboard_requests.
Proof. reflexivity. Qed.

Lemma empty_store_inv st : empty_store st → st = Database [] [] [].
Proof.
  intros H. destruct st as [d a p].
  pose proof (H c_device). pose proof (H c_alert).
  pose proof (H c_smartperformance). simpl in *. by subst.
Qed.

(** C1. On a store whose three collections hold no records, [GET /dashboard]
    answers with a summary in which every count is 0, the three lists
    (manufacturers, by_component, top5) are empty and the four
    smart-performance counters are the integer 0; every field is there and
    none is null. *)
Theorem dashboard_empty_store st :
  empty_store st →
  response (get_dashboard str_datetime (Some st))
  = inr {|
      smart_performance := {|
        disk_reclaimed_count := VInt 0;
        tune_pc_fix_count := VInt 0;
        malware_fix_count := VInt 0;
        internet_performance_count := VInt 0 |};
      device_info := {|
        total := 0; installed := 0; not_installed := 0;
        laptops := 0; desktops := 0; manufacturers := [] |};
      alerts := {|
        critical := 0; warning := 0; by_component := []; top5 := [] |} |}.
Proof.
  intros ->%empty_store_inv. reflexivity.
Qed.

(** C7. With no store configured (the [db] handle is absent) both
    [POST /seed] and [GET /dashboard] raise an HTTP 500 error with the detail
    "Database not configured"; they send no request to the store, return no
    partial result, and the handle is as it was. *)
Theorem unconfigured_store_fails utcnow :
  seed_demo_data None utcnow
  = Outcome
      (inl {| status_code := 500; detail := "Database not configured" |})
      None []
  ∧ get_dashboard str_datetime None
    = Outcome
        (inl {| status_code := 500; detail := "Database not configured" |})
        None [].
Proof. split; reflexivity. Qed.

(** C9. [GET /dashboard] is read-only: whatever the state of the store, none
    of the requests it sends is an insert (the store offers no update or
    delete), and the store afterwards is the store before. *)
Theorem dashboard_read_only db :
  db_after (get_dashboard str_datetime db) = db
  ∧ Forall (λ o, is_write o = false) (ops (get_dashboard str_datetime db)).
Proof.
  destruct db as [st |].
  - rewrite get_dashboard_connected. split; [done |].
    unfold dashboard_requests. repeat constructor.
  - split; [done | constructor].
Qed.

Lemma rename_id_replaced d : id_replaced str_datetime d (rename_id str_datetime d).
Proof.
  unfold id_replaced, rename_id. split; [| split].
  - rewrite lookup_insert_ne by done. apply lookup_delete_eq.
  - apply lookup_insert_eq.
  - intros k H1 H2. by rewrite lookup_insert_ne, lookup_delete_ne.
Qed.

Lemma rename_id_keeps k d :
  k ≠ "_id" → k ≠ "id" →
  field_or_null k (rename_id str_datetime d) = field_or_null k d.
Proof.
  intros H1 H2. unfold field_or_null.
  by rewrite (proj2 (proj2 (rename_id_replaced d))).
Qed.

(** C3. Whatever the state of the store, [alerts.top5] has
    min(5, number of alert records) entries and is sorted by timestamp,
    newest first; its entries are made from the first five records of the
    alerts in that order, each with the store identifier [_id] taken out, a
    string [id] holding the identifier's text put in, and every other field
    kept as it was. *)
Theorem top5_most_recent st :
  ∃ s, response (get_dashboard str_datetime (Some st)) = inr s
    ∧ length (top5 (alerts s)) = 5 `min` length (alert st)
    ∧ StronglySorted (newer_first "timestamp") (top5 (alerts s))
    ∧ ∃ sorted,
        sorted ≡ₚ alert st
        ∧ StronglySorted (newer_first "timestamp") sorted
        ∧ Forall2 (id_replaced str_datetime) (take 5 sorted)
            (top5 (alerts s)).
Proof.
  rewrite get_dashboard_connected. eexists. split; [reflexivity |]. simpl.
  split; [| split].
  - by rewrite length_fmap, find_docs_length.
  - apply (StronglySorted_fmap _ (newer_first "timestamp")).
    + intros d1 d2. unfold newer_first. by rewrite !rename_id_keeps.
    + apply StronglySorted_take, sort_docs_newer_first.
  - exists (sort_docs "timestamp" (-1) (alert st)).
    split; [apply sort_docs_perm |]. split; [apply sort_docs_newer_first |].
    unfold find_docs. apply Forall2_fmap_r, Forall_Forall2_diag.
    apply Forall_forall. intros d _. apply rename_id_replaced.
Qed.

(** C4. Whatever the state of the store, the [smart_performance] section is
    read off one record of the smartperformance collection whose identifier
    no other record of the collection exceeds; a counter that record lacks
    is reported as 0, and with no record at all the four counters are 0.
    A record the store has just inserted, giving it its identifier, is that
    record. *)
Theorem smart_performance_latest :
  (∀ st, ∃ s,
     response (get_dashboard str_datetime (Some st)) = inr s
     ∧ (smartperformance st = [] →
        smart_performance s
        = {| disk_reclaimed_count := VInt 0;
             tune_pc_fix_count := VInt 0;
             malware_fix_count := VInt 0;
             internet_performance_count := VInt 0 |})
     ∧ (smartperformance st ≠ [] →
        ∃ d, d ∈ smartperformance st
          ∧ (∀ d', d' ∈ smartperformance st →
                   bson_le (field_or_null "_id" d') (field_or_null "_id" d))
          ∧ reads_counter d "disk_reclaimed_count"
              (disk_reclaimed_count (smart_performance s))
          ∧ reads_counter d "tune_pc_fix_count"
              (tune_pc_fix_count (smart_performance s))
          ∧ reads_counter d "malware_fix_count"
              (malware_fix_count (smart_performance s))
          ∧ reads_counter d "internet_performance_count"
              (internet_performance_count (smart_performance s))))
  ∧ (∀ st d,
       d !! "_id" = None →
       ids_at_most_oid (smartperformance st) →
       ∃ s,
         response
           (get_dashboard str_datetime
              (Some (store_after (insert_one c_smartperformance d) st)))
         = inr s
         ∧ reads_counter d "disk_reclaimed_count"
             (disk_reclaimed_count (smart_performance s))
         ∧ reads_counter d "tune_pc_fix_count"
             (tune_pc_fix_count (smart_performance s))
         ∧ reads_counter d "malware_fix_count"
             (malware_fix_count (smart_performance s))
         ∧ reads_counter d "internet_performance_count"
             (internet_performance_count (smart_performance s))).
Proof.
  split.
  - intros st. rewrite get_dashboard_connected.
    eexists. split; [reflexivity |]. simpl. split.
    + intros ->. by rewrite find_docs_none.
    + intros Hne.
      destruct (find_docs_first "_id" _ Hne) as (d & -> & Hin & Hmax).
      exists d. repeat split; auto using get_or_0_reads.
  - intros st d Hd Hids. rewrite get_dashboard_connected.
    eexists. split; [reflexivity |]. simpl.
    set (l := smartperformance st) in *. unfold append_doc.
    destruct (find_docs_first "_id" (l ++ [with_id l d])) as (d1 & -> & Hin & Hmax);
      [by destruct l |].
    assert (d1 = with_id l d) as ->.
    { apply elem_of_app in Hin as [Hin | Hin%list_elem_of_singleton]; [| done].
      destruct (with_id_newest l d d1 Hd Hids Hin).
      apply Hmax. apply elem_of_app. right. by left. }
    assert (∀ k, k ≠ "_id" →
              reads_counter d k (get_or_0 (or_empty (Some (with_id l d))) k))
      as Hread.
    { intros k Hk. pose proof (get_or_0_reads (with_id l d) k) as H.
      unfold reads_counter in *. by rewrite with_id_keeps in H. }
    repeat split; by apply Hread.
Qed.

(** C5. Whatever the state of the store, the manufacturers list has exactly
    one entry for each distinct manufacturer value among the device records
    (a missing field reads as null), carrying the number of records with
    that value, and is ordered by count descending; likewise by_component
    for the component values of the alert records.  Nothing is said about
    the order among equal counts. *)
Theorem breakdowns_group_by_count st :
  ∃ s, response (get_dashboard str_datetime (Some st)) = inr s
    ∧ (NoDup (manufacturer <$> manufacturers (device_info s))
       ∧ (∀ v n, {| manufacturer := v; m_count := n |}
                   ∈ manufacturers (device_info s)
                 ↔ 0 < n ∧ n = records_with "manufacturer" v (device st))
       ∧ StronglySorted (λ a b, m_count b ≤ m_count a)
           (manufacturers (device_info s)))
    ∧ (NoDup (component <$> by_component (alerts s))
       ∧ (∀ v n, {| component := v; c_count := n |}
                   ∈ by_component (alerts s)
                 ↔ 0 < n ∧ n = records_with "component" v (alert st))
       ∧ StronglySorted (λ a b, c_count b ≤ c_count a)
           (by_component (alerts s))).
Proof.
  rewrite get_dashboard_connected. eexists. split; [reflexivity |]. simpl.
  split; (split; [| split]).
  - rewrite <- list_fmap_compose. apply group_by_count_NoDup.
  - intros v n. rewrite <- elem_of_group_by_count, list_elem_of_fmap. split.
    + intros ([v' n'] & [= -> ->] & ?). done.
    + intros ?. by exists (v, n).
  - apply (StronglySorted_fmap _ count_desc); [done |].
    apply group_by_count_sorted.
  - rewrite <- list_fmap_compose. apply group_by_count_NoDup.
  - intros v n. rewrite <- elem_of_group_by_count, list_elem_of_fmap. split.
    + intros ([v' n'] & [= -> ->] & ?). done.
    + intros ?. by exists (v, n).
  - apply (StronglySorted_fmap _ count_desc); [done |].
    apply group_by_count_sorted.
Qed.

(** In a list ordered by count descending, an entry whose count exceeds that
    of every other entry comes first. *)
Lemma top_count_first (top : ManufacturerCount) others rows :
  Forall (λ r, m_count r < m_count top) others →
  rows ≡ₚ top :: others →
  StronglySorted (λ a b, m_count b ≤ m_count a) rows →
  head rows = Some top.
Proof.
  intros Hlt Hp Hs. destruct rows as [| x rest].
  - by apply Permutation_nil_l in Hp.
  - simpl. f_equal. apply StronglySorted_cons in Hs as [Hx _].
    assert (x ∈ top :: others) as [-> | Hin]%elem_of_cons
      by (rewrite <- Hp; by left); [done |].
    assert (top ∈ x :: rest) as [-> | Hin']%elem_of_cons
      by (rewrite Hp; by left); [done |].
    rewrite Forall_forall in Hx, Hlt.
    specialize (Hx _ Hin'). specialize (Hlt _ Hin). lia.
Qed.

(** C2. Seeding an empty store leaves 5 devices and 6 alerts, and the
    dashboard of that store reports total = 5, laptops = 3, desktops = 2,
    installed = 3, not_installed = 2, critical = 3 and warning = 3, with
    Dell at count 2 as the first manufacturer; Dell stays first however the
    entries with equal counts are arranged. *)
Theorem dashboard_after_seed st utcnow :
  empty_store st →
  ∃ seeded s,
    db_after (seed_demo_data (Some st) utcnow) = Some seeded
    ∧ length (device seeded) = 5
    ∧ length (alert seeded) = 6
    ∧ response (get_dashboard str_datetime (Some seeded)) = inr s
    ∧ total (device_info s) = 5
    ∧ laptops (device_info s) = 3
    ∧ desktops (device_info s) = 2
    ∧ installed (device_info s) = 3
    ∧ not_installed (device_info s) = 2
    ∧ head (manufacturers (device_info s))
      = Some {| manufacturer := VStr "Dell"; m_count := 2 |}
    ∧ critical (alerts s) = 3
    ∧ warning (alerts s) = 3
    ∧ ∀ rows,
        rows ≡ₚ manufacturers (device_info s) →
        StronglySorted (λ a b, m_count b ≤ m_count a) rows →
        head rows = Some {| manufacturer := VStr "Dell"; m_count := 2 |}.
Proof.
  intros ->%empty_store_inv.
  eexists. eexists. split; [reflexivity |].
  rewrite get_dashboard_connected.
  do 2 (split; [reflexivity |]). split; [reflexivity |].
  do 8 (split; [vm_compute; reflexivity |]).
  intros rows Hp Hs.
  eapply top_count_first; [| etrans; [exact Hp |] | exact Hs].
  2: { vm_compute. reflexivity. }
  repeat constructor.
Qed.

(** C6. The seeder answers [{"status": "ok"}]; it sends an insert to a
    collection exactly when that collection holds no records, each
    collection on its own: a collection with records is left as it is, an
    empty one receives the sample records, each with a store identifier
    added.  Seeding again changes nothing and sends no insert, so every
    collection holds as many records after two calls as after one. *)
Theorem seed_only_when_empty st utcnow :
  let o := seed_demo_data (Some st) utcnow in
  response o = inr (dict [("status", VStr "ok")])
  ∧ ∃ st',
      db_after o = Some st'
      ∧ (∀ c, writes_to c (ops o) = bool_decide (coll st c = []))
      ∧ (∀ c, coll st c ≠ [] → coll st' c = coll st c)
      ∧ (∀ c, coll st c = [] →
              Forall2 stored_from (samples utcnow c) (coll st' c))
      ∧ ∀ utcnow',
          let o' := seed_demo_data (Some st') utcnow' in
          db_after o' = Some st'
          ∧ (∀ c, writes_to c (ops o') = false)
          ∧ ∃ st'', db_after o' = Some st''
              ∧ ∀ c, length (coll st'' c) = length (coll st' c).
Proof.
  assert (∀ c, Forall2 stored_from (samples utcnow c)
                 (append_docs [] (samples utcnow c))) as Hstored.
  { intros c.
    destruct (append_docs_stored [] _ (samples_lack_id utcnow c))
      as (stored & -> & HF).
    exact HF. }
  destruct st as [[| d0 d] [| a0 a] [| p0 p]]; cbv zeta;
    (split; [reflexivity |]); eexists; (split; [reflexivity |]);
    (split; [intros []; reflexivity |]);
    (split; [intros [] H; first [reflexivity | by destruct H] |]);
    (split;
     [ intros [] H; first [discriminate H | exact (Hstored _)]
     | intros utcnow'; split; [reflexivity |];
       split; [intros []; reflexivity |];
       eexists; split; [reflexivity | intros []; reflexivity] ]).
Qed.

(** C8. The answer of [GET /schema] does not depend on the store: for any
    two states of the [db] handle, configured or not, it is the same, namely
    the field definitions of the three entities; the endpoint sends nothing
    to the store and leaves the handle alone. *)
Theorem schema_static db1 db2 :
  response (get_schema_definitions db1) = response (get_schema_definitions db2)
  ∧ ops (get_schema_definitions db1) = []
  ∧ db_after (get_schema_definitions db1) = db1
  ∧ response (get_schema_definitions db1)
    = inr [
        ("device", {|
           title := "Device";
           properties := [
             {| p_name := "device_id"; p_type := TStr;
                p_description := Some "Unique device identifier";
                p_minimum := None; p_default := None |};
             {| p_name := "hostname"; p_type := TStr;
                p_description := Some "Device hostname";
                p_minimum := None; p_default := None |};
             {| p_name := "type"; p_type := TLiteral ["laptop"; "desktop"];
                p_description := Some "Form factor";
                p_minimum := None; p_default := None |};
             {| p_name := "manufacturer"; p_type := TStr;
                p_description := Some "Manufacturer name";
                p_minimum := None; p_default := None |};
             {| p_name := "installed"; p_type := TBool;
                p_description := Some "Whether UEM agent is installed";
                p_minimum := None; p_default := None |};
             {| p_name := "os"; p_type := TOptional TStr;
                p_description := Some "Operating system";
                p_minimum := None; p_default := Some VNone |} ];
           required := ["device_id"; "hostname"; "type"; "manufacturer";
                        "installed"] |});
        ("alert", {|
           title := "Alert";
           properties := [
             {| p_name := "device_id"; p_type := TStr;
                p_description := Some "Related device id";
                p_minimum := None; p_default := None |};
             {| p_name := "severity";
                p_type := TLiteral ["critical"; "warning"; "info"];
                p_description := None;
                p_minimum := None; p_default := None |};
             {| p_name := "component";
                p_type := TLiteral ["CPU"; "HDD"; "RAM"; "Battery"];
                p_description := None;
                p_minimum := None; p_default := None |};
             {| p_name := "message"; p_type := TStr;
                p_description := None;
                p_minimum := None; p_default := None |};
             {| p_name := "timestamp"; p_type := TDatetime;
                p_description := None;
                p_minimum := None; p_default := None |} ];
           required := ["device_id"; "severity"; "component"; "message"] |});
        ("smartperformance", {|
           title := "SmartPerformance";
           properties := [
             {| p_name := "period"; p_type := TStr;
                p_description :=
                  Some "Aggregation period label, e.g., 'today', 'week', 'month'";
                p_minimum := None; p_default := None |};
             {| p_name := "disk_reclaimed_count"; p_type := TInt;
                p_description := None;
                p_minimum := Some 0%Z; p_default := Some (VInt 0) |};
             {| p_name := "tune_pc_fix_count"; p_type := TInt;
                p_description := None;
                p_minimum := Some 0%Z; p_default := Some (VInt 0) |};
             {| p_name := "malware_fix_count"; p_type := TInt;
                p_description := None;
                p_minimum := Some 0%Z; p_default := Some (VInt 0) |};
             {| p_name := "internet_performance_count"; p_type := TInt;
                p_description := None;
                p_minimum := Some 0%Z; p_default := Some (VInt 0) |} ];
           required := ["period"] |}) ].
Proof. repeat split. Qed.

(** C10. Whatever the state of the store, the counts of [by_component] add
    up to the number of alert records, and [critical + warning] never
    exceeds that sum; it can be strictly less, because an alert of severity
    "info" is counted in [by_component] and can appear in [top5] while
    neither severity counter counts it. *)
Theorem by_component_counts_every_alert :
  (∀ st, ∃ s,
     response (get_dashboard str_datetime (Some st)) = inr s
     ∧ sum_list (c_count <$> by_component (alerts s)) = length (alert st)
     ∧ critical (alerts s) + warning (alerts s)
       ≤ sum_list (c_count <$> by_component (alerts s)))
  ∧ ∃ st s,
      response (get_dashboard str_datetime (Some st)) = inr s
      ∧ Forall (λ a, a !! "severity" = Some (VStr "info")) (alert st)
      ∧ critical (alerts s) + warning (alerts s)
        < sum_list (c_count <$> by_component (alerts s))
      ∧ by_component (alerts s) = [{| component := VStr "CPU"; c_count := 1 |}]
      ∧ ∃ e, e ∈ top5 (alerts s) ∧ e !! "severity" = Some (VStr "info").
Proof.
  split.
  - intros st. rewrite get_dashboard_connected.
    eexists. split; [reflexivity |]. simpl.
    rewrite <- list_fmap_compose.
    assert (sum_list
              ((c_count ∘ (λ d, {| component := d.1; c_count := d.2 |}))
                 <$> group_by_count "component" (alert st))
            = length (alert st)) as ->
      by apply group_by_count_sum.
    split; [done |]. apply count_where_disjoint.
    intros d H1%matches_single H2%matches_single. congruence.
  - exists (Database []
              [dict [("_id", VObjectId 0); ("device_id", VStr "D-1001");
                     ("severity", VStr "info"); ("component", VStr "CPU");
                     ("message", VStr "Fan cleaned");
                     ("timestamp", VDatetime 0)]]
              []).
    rewrite get_dashboard_connected. eexists. split; [reflexivity |].
    split; [by repeat constructor |].
    split; [vm_compute; lia |].
    split; [by vm_compute |].
    eexists. split; [by left | by vm_compute].
Qed.

End Properties.

(** ** Instances of the conditional statements *)

Lemma dashboard_empty_store_witness :
  empty_store (Database [] [] [])
  ∧ response (get_dashboard pretty (Some (Database [] [] [])))
    = inr {|
        smart_performance := {|
          disk_reclaimed_count := VInt 0;
          tune_pc_fix_count := VInt 0;
          malware_fix_count := VInt 0;
          internet_performance_count := VInt 0 |};
        device_info := {|
          total := 0; installed := 0; not_installed := 0;
          laptops := 0; desktops := 0; manufacturers := [] |};
        alerts := {|
          critical := 0; warning := 0; by_component := []; top5 := [] |} |}.
Proof.
  assert (empty_store (Database [] [] [])) as He by (intros []; reflexivity).
  split; [exact He |].
  exact (dashboard_empty_store pretty (Database [] [] []) He).
Defined.

Lemma dashboard_after_seed_witness :
  empty_store (Database [] [] [])
  ∧ ∃ seeded s,
      db_after (seed_demo_data (Some (Database [] [] [])) Z.of_nat)
      = Some seeded
      ∧ response (get_dashboard pretty (Some seeded)) = inr s
      ∧ total (device_info s) = 5
      ∧ head (manufacturers (device_info s))
        = Some {| manufacturer := VStr "Dell"; m_count := 2 |}
      ∧ critical (alerts s) = 3
      ∧ warning (alerts s) = 3.
Proof.
  assert (empty_store (Database [] [] [])) as He by (intros []; reflexivity).
  split; [exact He |].
  destruct (dashboard_after_seed pretty (Database [] [] []) Z.of_nat He)
    as (seeded & s & H1 & _ & _ & H2 & H3 & _ & _ & _ & _ & H4 & H5 & H6 & _).
  exists seeded, s.
  exact (conj H1 (conj H2 (conj H3 (conj H4 (conj H5 H6))))).
Defined.

(** * Further properties of the endpoints *)

(** ** Counting with several filters *)

Lemma count_where_cons q d l :
  count_where q (d :: l) = Nat.b2n (matches q d) + count_where q l.
Proof.
  unfold count_where. rewrite filter_cons.
  destruct (decide (matches q d)) as [H | H].
  - apply Is_true_eq_true in H. by rewrite H.
  - apply negb_prop_intro, Is_true_eq_true, negb_true_iff in H. by rewrite H.
Qed.

Lemma count_where_every l : count_where [] l = length l.
Proof.
  induction l as [| d l IH]; [done |].
  rewrite count_where_cons, IH. done.
Qed.

Lemma count_where_perm q l1 l2 :
  l1 ≡ₚ l2 → count_where q l1 = count_where q l2.
Proof. intros Hp. unfold count_where. by rewrite Hp. Qed.

Lemma sum_list_fmap_add {A} (f g : A → nat) (l : list A) :
  sum_list ((λ x, f x + g x) <$> l) = sum_list (f <$> l) + sum_list (g <$> l).
Proof. induction l as [| x l IH]; csimpl; [done |]. rewrite IH. lia. Qed.

(** Counting by each filter in turn and adding up is counting, record by
    record, the filters the record falls in. *)
Lemma count_where_hits qs l :
  sum_list ((λ q, count_where q l) <$> qs) = sum_list (filters_hit qs <$> l).
Proof.
  induction l as [| d l IH]; csimpl.
  - induction qs as [| q qs IHq]; csimpl; [done |]. by rewrite IHq.
  - rewrite <- IH. unfold filters_hit. rewrite <- sum_list_fmap_add.
    f_equal. apply list_fmap_ext. intros _ q _. apply count_where_cons.
Qed.

Lemma count_where_cover qs l :
  Forall (λ d, filters_hit qs d = 1) l →
  sum_list ((λ q, count_where q l) <$> qs) = length l.
Proof.
  intros H. rewrite count_where_hits.
  induction H as [| d l Hd _ IH]; csimpl; [done |]. rewrite Hd, IH. done.
Qed.



(** ** Groupings *)

Lemma group_by_count_positive field l :
  Forall (λ r, 0 < r.2) (group_by_count field l).
Proof.
  apply Forall_forall. intros [v n] H.
  by apply elem_of_group_by_count in H as [? _].
Qed.

Lemma length_le_sum (rows : list (value * nat)) :
  Forall (λ r, 0 < r.2) rows → length rows ≤ sum_list rows.*2.
Proof. induction 1 as [| r rows Hr _ IH]; csimpl; lia. Qed.

Lemma group_by_count_length field l :
  length (group_by_count field l) ≤ length l.
Proof.
  rewrite <- (group_by_count_sum field l).
  apply length_le_sum, group_by_count_positive.
Qed.

Lemma group_by_count_key field l v n :
  (v, n) ∈ group_by_count field l → ∃ d, d ∈ l ∧ v = field_or_null field d.
Proof.
  intros [Hpos ->]%elem_of_group_by_count.
  apply occurrences_positive, list_elem_of_fmap in Hpos as (d & -> & Hd).
  by exists d.
Qed.

Lemma records_with_perm field v l1 l2 :
  l1 ≡ₚ l2 → records_with field v l1 = records_with field v l2.
Proof.
  intros Hp. unfold records_with, occurrences. by rewrite Hp.
Qed.

Lemma group_by_count_order_free field l1 l2 :
  l1 ≡ₚ l2 → group_by_count field l1 ≡ₚ group_by_count field l2.
Proof.
  intros Hp. apply NoDup_Permutation.
  - eapply NoDup_fmap_1, group_by_count_NoDup.
  - eapply NoDup_fmap_1, group_by_count_NoDup.
  - intros [v n]. rewrite !elem_of_group_by_count.
    by rewrite (records_with_perm field v l1 l2 Hp).
Qed.

(** The first row of a grouping counts at least as many records as any value
    has. *)
Lemma group_by_count_first field l r rest :
  group_by_count field l = r :: rest →
  r.2 = records_with field r.1 l ∧ ∀ v, records_with field v l ≤ r.2.
Proof.
  intros Heq. split.
  - assert ((r.1, r.2) ∈ group_by_count field l) as H
      by (rewrite Heq; destruct r; by left).
    by apply elem_of_group_by_count in H as [_ ?].
  - intros v. destruct (decide (0 < records_with field v l)) as [Hpos |];
      [| lia].
    assert ((v, records_with field v l) ∈ group_by_count field l) as H
      by (by apply elem_of_group_by_count).
    pose proof (group_by_count_sorted field l) as Hs. rewrite Heq in H, Hs.
    apply StronglySorted_cons in Hs as [Hr _].
    apply elem_of_cons in H as [<- | H]; [done |].
    rewrite Forall_forall in Hr. apply (Hr _ H).
Qed.

Lemma group_by_count_nonempty field l : l ≠ [] → group_by_count field l ≠ [].
Proof.
  intros Hl Hnil. apply Hl, nil_length_inv.
  by rewrite <- (group_by_count_sum field l), Hnil.
Qed.

(** ** Records and their schemas *)

Lemma conforms_field m d f :
  conforms m d → f ∈ model_fields m → field_ok f d.
Proof.
  unfold conforms. rewrite forallb_True, Forall_forall. auto.
Qed.

Lemma field_ok_required f d :
  field_ok f d → is_required f = true →
  ∃ v, d !! f_name f = Some v ∧ has_type (f_annotation f) v.
Proof.
  unfold field_ok. intros H Hreq. destruct (d !! f_name f) as [v |].
  - exists v. split; [done |]. by apply andb_True in H as [? _].
  - by rewrite Hreq in H.
Qed.

Lemma has_type_literal choices v :
  has_type (TLiteral choices) v → ∃ s, v = VStr s ∧ s ∈ choices.
Proof.
  destruct v; simpl; try done. intros H%bool_decide_unpack. eauto.
Qed.

Lemma has_type_bool v : has_type TBool v → ∃ b, v = VBool b.
Proof. destruct v; simpl; try done. eauto. Qed.

Lemma matches_value k v v' d :
  d !! k = Some v → matches [(k, v')] d = bool_decide (v = v').
Proof.
  intros Hd. unfold matches. simpl. rewrite Hd, andb_true_r.
  apply bool_decide_ext. split; congruence.
Qed.

Lemma filters_hit_absent k v vs d :
  d !! k = Some v → v ∉ vs → filters_hit ((λ v', [(k, v')]) <$> vs) d = 0.
Proof.
  intros Hd. induction vs as [| v' vs IH]; [done |].
  rewrite not_elem_of_cons. intros [Hne Hnotin].
  change (Nat.b2n (matches [(k, v')] d)
          + filters_hit ((λ v', [(k, v')]) <$> vs) d = 0).
  rewrite (matches_value _ _ _ _ Hd), bool_decide_false by done.
  by rewrite IH.
Qed.

(** A record whose field holds one of the values asked for, each asked for
    once, falls in exactly one of the filters. *)
Lemma filters_hit_present k v vs d :
  d !! k = Some v → NoDup vs → v ∈ vs →
  filters_hit ((λ v', [(k, v')]) <$> vs) d = 1.
Proof.
  intros Hd Hnd. induction Hnd as [| v' vs Hv' Hnd IH]; [by intros ?%elem_of_nil |].
  intros Hin. change (Nat.b2n (matches [(k, v')] d)
                      + filters_hit ((λ v', [(k, v')]) <$> vs) d = 1).
  rewrite (matches_value _ _ _ _ Hd).
  destruct (decide (v = v')) as [-> | Hne].
  - rewrite bool_decide_true by done.
    by rewrite (filters_hit_absent _ _ _ _ Hd Hv').
  - rewrite bool_decide_false by done.
    apply elem_of_cons in Hin as [? | Hin]; [done |]. by rewrite IH.
Qed.

Lemma conforms_device_installed d :
  conforms Device d → ∃ b, d !! "installed" = Some (VBool b).
Proof.
  intros H.
  assert (Field "installed" TBool Required
            (Some "Whether UEM agent is installed") None
          ∈ model_fields Device) as Hf
    by (apply list_elem_of_lookup; by exists 4).
  destruct (field_ok_required _ _ (conforms_field _ _ _ H Hf) eq_refl)
    as (v & Hv & [b ->]%has_type_bool).
  by exists b.
Qed.

Lemma conforms_device_type d :
  conforms Device d →
  ∃ s, d !! "type" = Some (VStr s) ∧ s ∈ ["laptop"; "desktop"].
Proof.
  intros H.
  assert (Field "type" (TLiteral ["laptop"; "desktop"]) Required
            (Some "Form factor") None
          ∈ model_fields Device) as Hf
    by (apply list_elem_of_lookup; by exists 2).
  destruct (field_ok_required _ _ (conforms_field _ _ _ H Hf) eq_refl)
    as (v & Hv & (s & -> & Hs)%has_type_literal).
  by exists s.
Qed.

Lemma conforms_alert_severity a :
  conforms Alert a →
  ∃ s, a !! "severity" = Some (VStr s) ∧ s ∈ ["critical"; "warning"; "info"].
Proof.
  intros H.
  assert (Field "severity" (TLiteral ["critical"; "warning"; "info"]) Required
            None None
          ∈ model_fields Alert) as Hf
    by (apply list_elem_of_lookup; by exists 1).
  destruct (field_ok_required _ _ (conforms_field _ _ _ H Hf) eq_refl)
    as (v & Hv & (s & -> & Hs)%has_type_literal).
  by exists s.
Qed.

Lemma conforms_alert_component a :
  conforms Alert a →
  ∃ s, a !! "component" = Some (VStr s)
       ∧ s ∈ ["CPU"; "HDD"; "RAM"; "Battery"].
Proof.
  intros H.
  assert (Field "component" (TLiteral ["CPU"; "HDD"; "RAM"; "Battery"])
            Required None None
          ∈ model_fields Alert) as Hf
    by (apply list_elem_of_lookup; by exists 2).
  destruct (field_ok_required _ _ (conforms_field _ _ _ H Hf) eq_refl)
    as (v & Hv & (s & -> & Hs)%has_type_literal).
  by exists s.
Qed.

(** ** The dashboard, further *)

Section Further.

Variable str_datetime : Z → string.


(** X2. If every device record satisfies the field constraints of [Device]
    (so [installed] is a boolean and [type] is laptop or desktop), the
    counts split the devices exactly: [installed + not_installed = total]
    and [laptops + desktops = total]. *)
Theorem conforming_devices_partition st :
  Forall (λ d, conforms Device d) (device st) →
  ∃ s, response (get_dashboard str_datetime (Some st)) = inr s
    ∧ installed (device_info s) + not_installed (device_info s)
      = total (device_info s)
    ∧ laptops (device_info s) + desktops (device_info s)
      = total (device_info s).
Proof.
  intros Hall. rewrite get_dashboard_connected.
  eexists. split; [reflexivity |]. simpl. rewrite count_where_every. split.
  - pose proof (count_where_cover
                  ((λ v, [("installed", v)]) <$> [VBool true; VBool false])
                  (device st)) as H.
    csimpl in H. rewrite Nat.add_0_r in H. apply H.
    eapply Forall_impl; [exact Hall |]. intros d [b Hb]%conforms_device_installed.
    apply (filters_hit_present "installed" (VBool b)
             [VBool true; VBool false] d Hb).
    + apply (bool_decide_unpack _). by vm_compute.
    + destruct b; [by left | right; by left].
  - pose proof (count_where_cover
                  ((λ v, [("type", v)]) <$> (VStr <$> ["laptop"; "desktop"]))
                  (device st)) as H.
    csimpl in H. rewrite Nat.add_0_r in H. apply H.
    eapply Forall_impl; [exact Hall |].
    intros d (s & Hs & Hin)%conforms_device_type.
    apply (filters_hit_present "type" (VStr s)
             [VStr "laptop"; VStr "desktop"] d Hs).
    + apply (bool_decide_unpack _). by vm_compute.
    + by apply (list_elem_of_fmap_2 VStr) in Hin.
Qed.

(** X3. If every alert record satisfies the field constraints of [Alert],
    then [critical + warning], together with the number of "info" alerts,
    is the number of alerts, and [by_component] has at most four entries,
    one per component among CPU, HDD, RAM and Battery. *)
Theorem conforming_alerts_partition st :
  Forall (λ a, conforms Alert a) (alert st) →
  ∃ s, response (get_dashboard str_datetime (Some st)) = inr s
    ∧ critical (alerts s) + warning (alerts s)
      + count_where [("severity", VStr "info")] (alert st)
      = length (alert st)
    ∧ length (by_component (alerts s)) ≤ 4
    ∧ Forall (λ e, component e
                   ∈ [VStr "CPU"; VStr "HDD"; VStr "RAM"; VStr "Battery"])
        (by_component (alerts s)).
Proof.
  intros Hall. rewrite get_dashboard_connected.
  eexists. split; [reflexivity |]. simpl.
  assert (Forall (λ e, component e
                       ∈ [VStr "CPU"; VStr "HDD"; VStr "RAM"; VStr "Battery"])
            ((λ d, {| component := d.1; c_count := d.2 |})
               <$> group_by_count "component" (alert st))) as Hkeys.
  { apply Forall_fmap, Forall_forall. intros [v n] Hin. simpl.
    apply group_by_count_key in Hin as (a & Ha & ->).
    rewrite Forall_forall in Hall.
    destruct (conforms_alert_component a (Hall a Ha)) as (s & Hs & Hin).
    unfold field_or_null. rewrite Hs. simpl.
    by apply (list_elem_of_fmap_2 VStr) in Hin. }
  split; [| split; [| exact Hkeys]].
  - pose proof (count_where_cover
                  ((λ v, [("severity", v)])
                     <$> (VStr <$> ["critical"; "warning"; "info"]))
                  (alert st)) as H.
    csimpl in H. rewrite Nat.add_0_r, Nat.add_assoc in H. apply H.
    eapply Forall_impl; [exact Hall |].
    intros a (s & Hs & Hin)%conforms_alert_severity.
    apply (filters_hit_present "severity" (VStr s)
             [VStr "critical"; VStr "warning"; VStr "info"] a Hs).
    + apply (bool_decide_unpack _). by vm_compute.
    + by apply (list_elem_of_fmap_2 VStr) in Hin.
  - rewrite <- (length_fmap component).
    change 4 with (length [VStr "CPU"; VStr "HDD"; VStr "RAM"; VStr "Battery"]).
    apply submseteq_length, NoDup_submseteq.
    + rewrite <- list_fmap_compose. apply group_by_count_NoDup.
    + intros v (e & -> & He)%list_elem_of_fmap.
      rewrite Forall_forall in Hkeys. by apply Hkeys.
Qed.

(** X4. Whatever the store holds, the counts of the manufacturers list add
    up to [device_info.total], and neither breakdown has more entries than
    there are records to group. *)
Theorem breakdowns_cover_records st :
  ∃ s, response (get_dashboard str_datetime (Some st)) = inr s
    ∧ sum_list (m_count <$> manufacturers (device_info s))
      = total (device_info s)
    ∧ length (manufacturers (device_info s)) ≤ total (device_info s)
    ∧ length (by_component (alerts s)) ≤ length (alert st).
Proof.
  rewrite get_dashboard_connected. eexists. split; [reflexivity |]. simpl.
  rewrite count_where_every, !length_fmap, <- list_fmap_compose.
  split; [apply group_by_count_sum |].
  split; apply group_by_count_length.
Qed.

(** X5. With at least one device record, the manufacturers list has a first
    entry; its count is the number of records of its manufacturer, and no
    manufacturer value has more records than that. *)
Theorem first_manufacturer_most_frequent st :
  device st ≠ [] →
  ∃ s top,
    response (get_dashboard str_datetime (Some st)) = inr s
    ∧ head (manufacturers (device_info s)) = Some top
    ∧ m_count top
      = records_with "manufacturer" (manufacturer top) (device st)
    ∧ ∀ v, records_with "manufacturer" v (device st) ≤ m_count top.
Proof.
  intros Hne. rewrite get_dashboard_connected.
  destruct (group_by_count "manufacturer" (device st)) as [| r rest] eqn:Heq;
    [by destruct (group_by_count_nonempty "manufacturer" _ Hne) |].
  eexists. exists {| manufacturer := r.1; m_count := r.2 |}.
  split; [reflexivity |]. simpl.
  split; [done |]. by apply group_by_count_first with rest.
Qed.

(** X6. With at least one alert record, [top5] starts with an alert no other
    alert is newer than; and the alerts split into those [top5] is made
    from and the rest, none of the rest being newer than any of the
    former. *)
Theorem top5_are_the_newest st :
  alert st ≠ [] →
  ∃ s e picked rest,
    response (get_dashboard str_datetime (Some st)) = inr s
    ∧ head (top5 (alerts s)) = Some e
    ∧ (∀ a, a ∈ alert st →
            bson_le (field_or_null "timestamp" a)
              (field_or_null "timestamp" e))
    ∧ picked ++ rest ≡ₚ alert st
    ∧ top5 (alerts s) = rename_id str_datetime <$> picked
    ∧ ∀ p a, p ∈ picked → a ∈ rest →
             bson_le (field_or_null "timestamp" a)
               (field_or_null "timestamp" p).
Proof.
  intros Hne. rewrite get_dashboard_connected.
  pose proof (sort_docs_perm "timestamp" (-1) (alert st)) as Hp.
  pose proof (sort_docs_newer_first "timestamp" (alert st)) as Hs.
  set (sorted := sort_docs "timestamp" (-1) (alert st)) in *.
  eexists. exists (rename_id str_datetime (default ∅ (head sorted))).
  exists (take 5 sorted), (drop 5 sorted).
  split; [reflexivity |]. simpl. unfold find_docs. fold sorted.
  destruct sorted as [| d tl] eqn:Hsorted.
  { symmetry in Hp. by apply Permutation_nil_r in Hp. }
  split; [done |]. split; [| split; [| split; [done |]]].
  - intros a Ha. simpl. rewrite rename_id_keeps by done.
    rewrite <- Hp in Ha. apply StronglySorted_cons in Hs as [Hd _].
    apply elem_of_cons in Ha as [-> | Ha]; [done |].
    rewrite Forall_forall in Hd. by apply Hd.
  - by rewrite take_drop.
  - intros p a Hpick Hrest. rewrite <- (take_drop 5 (d :: tl)) in Hs.
    by apply (StronglySorted_app_1_elem_of _ _ _ p a) in Hs.
Qed.

(** X7. With five alert records or fewer, [top5] leaves none out: it holds
    every alert, each with its identifier replaced. *)
Theorem top5_all_when_few st :
  length (alert st) ≤ 5 →
  ∃ s, response (get_dashboard str_datetime (Some st)) = inr s
    ∧ top5 (alerts s) ≡ₚ rename_id str_datetime <$> alert st.
Proof.
  intros Hlen. rewrite get_dashboard_connected.
  eexists. split; [reflexivity |]. simpl. unfold find_docs.
  rewrite take_ge by (by rewrite sort_docs_perm).
  by rewrite sort_docs_perm.
Qed.

(** X8. Each section of the summary depends on its own collection alone:
    two stores with the same device records get the same [device_info],
    with the same alert records the same [alerts], with the same
    smartperformance records the same [smart_performance], whatever else
    they hold. *)
Theorem sections_independent st1 st2 :
  ∃ s1 s2,
    response (get_dashboard str_datetime (Some st1)) = inr s1
    ∧ response (get_dashboard str_datetime (Some st2)) = inr s2
    ∧ (device st1 = device st2 → device_info s1 = device_info s2)
    ∧ (alert st1 = alert st2 → alerts s1 = alerts s2)
    ∧ (smartperformance st1 = smartperformance st2 →
       smart_performance s1 = smart_performance s2).
Proof.
  rewrite !get_dashboard_connected. eexists. eexists.
  split; [reflexivity |]. split; [reflexivity |]. simpl.
  repeat split; by intros ->.
Qed.

(** X9. The order in which records are stored does not matter to the
    counts: two stores holding the same device records and the same alert
    records, in any order, get the same totals and severity counts, the same
    manufacturer and component entries up to their order, and as many
    [top5] entries. *)
Theorem dashboard_order_insensitive st1 st2 :
  device st1 ≡ₚ device st2 →
  alert st1 ≡ₚ alert st2 →
  ∃ s1 s2,
    response (get_dashboard str_datetime (Some st1)) = inr s1
    ∧ response (get_dashboard str_datetime (Some st2)) = inr s2
    ∧ total (device_info s1) = total (device_info s2)
    ∧ installed (device_info s1) = installed (device_info s2)
    ∧ not_installed (device_info s1) = not_installed (device_info s2)
    ∧ laptops (device_info s1) = laptops (device_info s2)
    ∧ desktops (device_info s1) = desktops (device_info s2)
    ∧ manufacturers (device_info s1) ≡ₚ manufacturers (device_info s2)
    ∧ critical (alerts s1) = critical (alerts s2)
    ∧ warning (alerts s1) = warning (alerts s2)
    ∧ by_component (alerts s1) ≡ₚ by_component (alerts s2)
    ∧ length (top5 (alerts s1)) = length (top5 (alerts s2)).
Proof.
  intros Hd Ha. rewrite !get_dashboard_connected. eexists. eexists.
  split; [reflexivity |]. split; [reflexivity |]. simpl.
  rewrite !(count_where_perm _ _ _ Hd), !(count_where_perm _ _ _ Ha).
  do 5 (split; [done |]).
  split; [by apply fmap_Permutation, group_by_count_order_free |].
  do 2 (split; [done |]).
  split; [by apply fmap_Permutation, group_by_count_order_free |].
  rewrite !length_fmap, !find_docs_length. by rewrite Ha.
Qed.

(** [POST /seed] on a connected store, collection by collection. *)
Lemma seed_demo_data_connected st utcnow :
  db_after (seed_demo_data (Some st) utcnow)
  = Some (Database (seeded utcnow c_device (device st))
            (seeded utcnow c_alert (alert st))
            (seeded utcnow c_smartperformance (smartperformance st))).
Proof. destruct st as [[| d0 d] [| a0 a] [| p0 p]]; reflexivity. Qed.

Lemma append_docs_length l docs :
  length (append_docs l docs) = length l + length docs.
Proof.
  revert l. unfold append_docs.
  induction docs as [| d docs IH]; intros l; simpl; [lia |].
  rewrite IH. unfold append_doc. rewrite length_app. simpl. lia.
Qed.

Lemma seeded_length utcnow c l :
  length (seeded utcnow c l)
  = if bool_decide (l = []) then length (samples utcnow c) else length l.
Proof.
  unfold seeded. case_bool_decide; [| done]. by rewrite append_docs_length.
Qed.

Lemma seeded_nonempty utcnow c l : 0 < length (seeded utcnow c l).
Proof.
  rewrite seeded_length. case_bool_decide.
  - destruct c; simpl; lia.
  - destruct l; [done | simpl; lia].
Qed.

(** X10. Seeding and then reading the dashboard: [total] is 5 if there were
    no devices and the number of devices there were otherwise, [top5] has 5
    entries if there were no alerts and min(5, their number) otherwise, so
    neither is ever empty after a seed; and if there was no smartperformance
    record the counters read 120, 85, 32 and 74. *)
Theorem dashboard_after_seeding st utcnow :
  ∃ st' s,
    db_after (seed_demo_data (Some st) utcnow) = Some st'
    ∧ response (get_dashboard str_datetime (Some st')) = inr s
    ∧ total (device_info s)
      = (if bool_decide (device st = []) then 5 else length (device st))
    ∧ length (top5 (alerts s))
      = (if bool_decide (alert st = []) then 5
         else 5 `min` length (alert st))
    ∧ 0 < total (device_info s)
    ∧ 0 < length (top5 (alerts s))
    ∧ (smartperformance st = [] →
       smart_performance s
       = {| disk_reclaimed_count := VInt 120;
            tune_pc_fix_count := VInt 85;
            malware_fix_count := VInt 32;
            internet_performance_count := VInt 74 |}).
Proof.
  eexists. eexists. split; [apply seed_demo_data_connected |].
  rewrite get_dashboard_connected. split; [reflexivity |]. simpl.
  rewrite count_where_every, length_fmap, find_docs_length.
  pose proof (seeded_nonempty utcnow c_device (device st)).
  pose proof (seeded_nonempty utcnow c_alert (alert st)).
  rewrite !seeded_length in *.
  split; [by case_bool_decide |]. split; [by case_bool_decide |].
  split; [done |]. split; [lia |].
  intros ->. by vm_compute.
Qed.

Lemma stored_conforms m sample stored :
  stored_from sample stored →
  "_id" ∉ f_name <$> model_fields m →
  conforms m sample → conforms m stored.
Proof.
  intros [<- _] Hid. unfold conforms. rewrite !forallb_True, !Forall_forall.
  intros H f Hf. specialize (H f Hf). unfold field_ok in *.
  rewrite lookup_delete_ne in H; [done |].
  intros Heq. apply Hid. rewrite Heq. by apply list_elem_of_fmap_2.
Qed.

Lemma samples_conform utcnow c :
  Forall (λ d, conforms (model_of c) d) (samples utcnow c).
Proof.
  destruct c; repeat (constructor; [by vm_compute |]); constructor.
Qed.

(** X11. The records the seeder puts into an empty store satisfy the field
    constraints of their entity in [schemas.py], whatever the clock shows:
    the devices those of [Device], the alerts those of [Alert], the
    performance record those of [SmartPerformance]; and no collection is
    left empty. *)
Theorem seeded_records_conform st utcnow :
  empty_store st →
  ∃ st',
    db_after (seed_demo_data (Some st) utcnow) = Some st'
    ∧ ∀ c, coll st' c ≠ []
           ∧ Forall (λ d, conforms (model_of c) d) (coll st' c).
Proof.
  intros ->%empty_store_inv.
  exists (Database (append_docs [] (samples utcnow c_device))
            (append_docs [] (samples utcnow c_alert))
            (append_docs [] (samples utcnow c_smartperformance))).
  split; [rewrite seed_demo_data_connected; reflexivity |]. intros c.
  assert (coll (Database (append_docs [] (samples utcnow c_device))
                  (append_docs [] (samples utcnow c_alert))
                  (append_docs [] (samples utcnow c_smartperformance))) c
          = append_docs [] (samples utcnow c)) as ->
    by (destruct c; reflexivity).
  destruct (append_docs_stored [] _ (samples_lack_id utcnow c))
    as (stored & -> & HF). simpl.
  pose proof (samples_conform utcnow c) as Hc. split.
  - intros ->. apply Forall2_nil_inv_r in HF. by destruct c.
  - assert ("_id" ∉ f_name <$> model_fields (model_of c)) as Hid
      by (destruct c; apply (bool_decide_unpack _); by vm_compute).
    clear -HF Hc Hid. induction HF as [| d e ds es Hde _ IH]; [done |].
    apply Forall_cons in Hc as [Hd Hds]. constructor; [| by apply IH].
    by apply (stored_conforms _ d).
Qed.

End Further.

(** ** Stores without ties *)

Lemma StronglySorted_cases {A} (S : relation A) l x y :
  StronglySorted S l → x ∈ l → y ∈ l → x = y ∨ S x y ∨ S y x.
Proof.
  induction 1 as [| z l Hl IH Hz]; [by intros ?%elem_of_nil |].
  rewrite Forall_forall in Hz.
  intros [-> | Hx]%elem_of_cons [-> | Hy]%elem_of_cons; auto.
Qed.

(** Records stored oldest first, no two of an age, sort newest first into
    the reverse of the order they are stored in. *)
Lemma sort_docs_strict key l :
  StronglySorted (older_than key) l → sort_docs key (-1) l = reverse l.
Proof.
  intros Hl. apply (StronglySorted_unique_strong (newer_first key)).
  - intros x y Hx Hy Hxy Hyx.
    rewrite sort_docs_perm in Hx. rewrite reverse_Permutation in Hy.
    destruct (StronglySorted_cases _ _ _ _ Hl Hx Hy) as [? | [H | H]];
      [done | by destruct H ..].
  - apply sort_docs_newer_first.
  - apply Sorted_StronglySorted.
    { intros a b c. unfold newer_first. intros. by etrans. }
    apply (Sorted_reverse (flip (newer_first key))), StronglySorted_Sorted.
    eapply StronglySorted_weaken; [| exact Hl].
    intros a b Hab. unfold flip, newer_first, older_than in *.
    by destruct (base.total bson_le (field_or_null key a)
                   (field_or_null key b)).
  - by rewrite sort_docs_perm, reverse_Permutation.
Qed.

Section Ties.

Variable str_datetime : Z → string.

(** X14. If the alerts are stored oldest first and no two carry the same
    timestamp, [top5] is settled to the last entry: the five alerts stored
    last, the last one first, each with its identifier replaced. *)
Theorem top5_without_ties st :
  StronglySorted (older_than "timestamp") (alert st) →
  ∃ s, response (get_dashboard str_datetime (Some st)) = inr s
    ∧ top5 (alerts s)
      = rename_id str_datetime <$> take 5 (reverse (alert st)).
Proof.
  intros Hl. rewrite get_dashboard_connected.
  eexists. split; [reflexivity |]. simpl. unfold find_docs.
  by rewrite sort_docs_strict.
Qed.

End Ties.

(** ** The connectivity report *)



Lemma getenv_truthy_spec environ name :
  getenv_truthy environ name = true
  ↔ ∃ text, environ !! name = Some text ∧ text ≠ "".
Proof.
  unfold getenv_truthy. destruct (environ !! name) as [text |].
  - rewrite negb_true_iff, bool_decide_eq_false. split.
    + intros H. by exists text.
    + by intros (text' & [= <-] & H).
  - split; [done | by intros (? & [=] & _)].
Qed.

(** X13. What [GET /test] says about the configuration.  A variable counts
    as set only if it is there and not empty: [database_url] reads "Set"
    exactly then, "Not Set" otherwise, likewise [database_name]; neither
    depends on the store or on what it answers. *)
Theorem test_database_env_report environ db answer :
  let r := test_database environ db answer in
  (r_database_url r = "✅ Set"
   ↔ ∃ text, environ !! "DATABASE_URL" = Some text ∧ text ≠ "")
  ∧ (r_database_url r = "❌ Not Set"
     ↔ environ !! "DATABASE_URL" = None ∨ environ !! "DATABASE_URL" = Some "")
  ∧ (r_database_name r = "✅ Set"
     ↔ ∃ text, environ !! "DATABASE_NAME" = Some text ∧ text ≠ "")
  ∧ (r_database_name r = "❌ Not Set"
     ↔ environ !! "DATABASE_NAME" = None
       ∨ environ !! "DATABASE_NAME" = Some "")
  ∧ ∀ db' answer',
      r_database_url (test_database environ db' answer') = r_database_url r
      ∧ r_database_name (test_database environ db' answer')
        = r_database_name r.
Proof.
  cbv zeta.
  assert (∀ db0 answer0,
            r_database_url (test_database environ db0 answer0)
            = (if getenv_truthy environ "DATABASE_URL" then "✅ Set"
               else "❌ Not Set")
            ∧ r_database_name (test_database environ db0 answer0)
              = (if getenv_truthy environ "DATABASE_NAME" then "✅ Set"
                 else "❌ Not Set")) as Hflags.
  { intros [st |] answer0; unfold test_database; [| done].
    by destruct (answer0 st). }
  assert (∀ name,
            ((if getenv_truthy environ name then "✅ Set" else "❌ Not Set")
             = "✅ Set"
             ↔ ∃ text, environ !! name = Some text ∧ text ≠ "")
            ∧ ((if getenv_truthy environ name then "✅ Set"
                else "❌ Not Set") = "❌ Not Set"
               ↔ environ !! name = None ∨ environ !! name = Some ""))
    as Hname.
  { intros name. rewrite <- getenv_truthy_spec. unfold getenv_truthy.
    destruct (environ !! name) as [text |]; simpl.
    - destruct (decide (text = "")) as [-> | Hne].
      + rewrite bool_decide_true by done. simpl.
        split; [done |]. split; [by right | done].
      + rewrite bool_decide_false by done. simpl.
        split; [done |]. split; [done |]. intros [[=] | [= ?]]. done.
    - split; [done |]. split; [by left | done]. }
  destruct (Hflags db answer) as [-> ->].
  destruct (Hname "DATABASE_URL") as [? ?].
  destruct (Hname "DATABASE_NAME") as [? ?].
  repeat (split; [done |]). intros db' answer'. apply Hflags.
Qed.

(** ** Counters against their schema *)

Lemma int_counter_reads d f out :
  field_ok f d → f_annotation f = TInt → f_ge f = Some 0%Z →
  reads_counter d (f_name f) out → ∃ z, out = VInt z ∧ (0 ≤ z)%Z.
Proof.
  unfold field_ok, reads_counter. intros Hok Ha Hge Hout.
  destruct (d !! f_name f) as [v |]; [| by exists 0%Z].
  subst out. rewrite Ha, Hge in Hok. apply andb_True in Hok as [Hty Hlo].
  destruct v; try done. simpl in Hlo. apply bool_decide_unpack in Hlo.
  eauto.
Qed.

Section Counters.

Variable str_datetime : Z → string.

(** X15. If every smartperformance record satisfies the field constraints
    of [SmartPerformance], the four counters of the summary are integers and
    none is negative, whether they come from a record or from the default
    for a missing record or field. *)
Theorem conforming_counters_nonnegative st :
  Forall (λ d, conforms SmartPerformance d) (smartperformance st) →
  ∃ s z1 z2 z3 z4,
    response (get_dashboard str_datetime (Some st)) = inr s
    ∧ smart_performance s
      = {| disk_reclaimed_count := VInt z1;
           tune_pc_fix_count := VInt z2;
           malware_fix_count := VInt z3;
           internet_performance_count := VInt z4 |}
    ∧ (0 ≤ z1)%Z ∧ (0 ≤ z2)%Z ∧ (0 ≤ z3)%Z ∧ (0 ≤ z4)%Z.
Proof.
  intros Hall. rewrite get_dashboard_connected.
  destruct (decide (smartperformance st = [])) as [Hnil | Hne].
  - eexists. exists 0%Z, 0%Z, 0%Z, 0%Z. split; [reflexivity |]. simpl.
    rewrite Hnil, find_docs_none. done.
  - destruct (find_docs_first "_id" _ Hne) as (d & Hhead & Hin & _).
    rewrite Forall_forall in Hall. specialize (Hall d Hin).
    assert (∀ i f, model_fields SmartPerformance !! i = Some f →
              f_annotation f = TInt → f_ge f = Some 0%Z →
              ∃ z, get_or_0 (or_empty (Some d)) (f_name f) = VInt z
                   ∧ (0 ≤ z)%Z) as Hcounter.
    { intros i f Hf Ha Hge. apply (int_counter_reads d f); try done.
      - apply (conforms_field SmartPerformance); [done |].
        apply list_elem_of_lookup. by exists i.
      - apply get_or_0_reads. }
    destruct (Hcounter 1 _ eq_refl eq_refl eq_refl) as (z1 & Hz1 & ?).
    destruct (Hcounter 2 _ eq_refl eq_refl eq_refl) as (z2 & Hz2 & ?).
    destruct (Hcounter 3 _ eq_refl eq_refl eq_refl) as (z3 & Hz3 & ?).
    destruct (Hcounter 4 _ eq_refl eq_refl eq_refl) as (z4 & Hz4 & ?).
    cbn [f_name] in Hz1, Hz2, Hz3, Hz4.
    eexists. exists z1, z2, z3, z4. split; [reflexivity |].
    cbn [smart_performance]. cbv zeta.
    rewrite Hhead, Hz1, Hz2, Hz3, Hz4. done.
Qed.

End Counters.

(** ** Instances of the further conditional statements *)

Lemma conforming_devices_partition_witness :
  Forall (λ d, conforms Device d) (device (Database devices [] []))
  ∧ ∃ s, response (get_dashboard pretty (Some (Database devices [] [])))
         = inr s
      ∧ installed (device_info s) + not_installed (device_info s)
        = total (device_info s)
      ∧ laptops (device_info s) + desktops (device_info s)
        = total (device_info s).
Proof.
  assert (Forall (λ d, conforms Device d) (device (Database devices [] [])))
    as H by (apply (bool_decide_unpack _); by vm_compute).
  split; [exact H |].
  exact (conforming_devices_partition pretty (Database devices [] []) H).
Defined.

Lemma conforming_alerts_partition_witness :
  Forall (λ a, conforms Alert a)
    (alert (Database [] (sample_alerts Z.of_nat) []))
  ∧ ∃ s, response (get_dashboard pretty
                     (Some (Database [] (sample_alerts Z.of_nat) [])))
         = inr s
      ∧ length (by_component (alerts s)) ≤ 4.
Proof.
  assert (Forall (λ a, conforms Alert a)
            (alert (Database [] (sample_alerts Z.of_nat) [])))
    as H by (apply (bool_decide_unpack _); by vm_compute).
  split; [exact H |].
  destruct (conforming_alerts_partition pretty
              (Database [] (sample_alerts Z.of_nat) []) H)
    as (s & H1 & _ & H2 & _).
  exists s. exact (conj H1 H2).
Defined.

Lemma first_manufacturer_most_frequent_witness :
  device (Database devices [] []) ≠ []
  ∧ ∃ s top,
      response (get_dashboard pretty (Some (Database devices [] [])))
      = inr s
      ∧ head (manufacturers (device_info s)) = Some top
      ∧ ∀ v, records_with "manufacturer" v devices ≤ m_count top.
Proof.
  assert (device (Database devices [] []) ≠ []) as H by discriminate.
  split; [exact H |].
  destruct (first_manufacturer_most_frequent pretty
              (Database devices [] []) H) as (s & top & H1 & H2 & _ & H3).
  exists s, top. exact (conj H1 (conj H2 H3)).
Defined.

Lemma top5_are_the_newest_witness :
  alert (Database [] (sample_alerts Z.of_nat) []) ≠ []
  ∧ ∃ s e,
      response (get_dashboard pretty
                  (Some (Database [] (sample_alerts Z.of_nat) [])))
      = inr s
      ∧ head (top5 (alerts s)) = Some e
      ∧ ∀ a, a ∈ sample_alerts Z.of_nat →
             bson_le (field_or_null "timestamp" a)
               (field_or_null "timestamp" e).
Proof.
  assert (alert (Database [] (sample_alerts Z.of_nat) []) ≠ []) as H
    by discriminate.
  split; [exact H |].
  destruct (top5_are_the_newest pretty
              (Database [] (sample_alerts Z.of_nat) []) H)
    as (s & e & _ & _ & H1 & H2 & H3 & _).
  exists s, e. exact (conj H1 (conj H2 H3)).
Defined.

Lemma top5_all_when_few_witness :
  length (alert (Database [] [dict [("message", VStr "Fan cleaned")]] []))
  ≤ 5
  ∧ ∃ s,
      response
        (get_dashboard pretty
           (Some (Database [] [dict [("message", VStr "Fan cleaned")]] [])))
      = inr s
      ∧ top5 (alerts s)
        ≡ₚ rename_id pretty <$> [dict [("message", VStr "Fan cleaned")]].
Proof.
  assert (length (alert (Database []
                           [dict [("message", VStr "Fan cleaned")]] []))
          ≤ 5) as H by (simpl; lia).
  split; [exact H |].
  exact (top5_all_when_few pretty
           (Database [] [dict [("message", VStr "Fan cleaned")]] []) H).
Defined.

Lemma dashboard_order_insensitive_witness :
  device (Database [dict [("manufacturer", VStr "Dell")];
                    dict [("manufacturer", VStr "HP")]] [] [])
  ≡ₚ device (Database [dict [("manufacturer", VStr "HP")];
                       dict [("manufacturer", VStr "Dell")]] [] [])
  ∧ alert (Database [dict [("manufacturer", VStr "Dell")];
                     dict [("manufacturer", VStr "HP")]] [] [])
    ≡ₚ alert (Database [dict [("manufacturer", VStr "HP")];
                        dict [("manufacturer", VStr "Dell")]] [] [])
  ∧ ∃ s1 s2,
      response
        (get_dashboard pretty
           (Some (Database [dict [("manufacturer", VStr "Dell")];
                            dict [("manufacturer", VStr "HP")]] [] [])))
      = inr s1
      ∧ response
          (get_dashboard pretty
             (Some (Database [dict [("manufacturer", VStr "HP")];
                              dict [("manufacturer", VStr "Dell")]] [] [])))
        = inr s2
      ∧ total (device_info s1) = total (device_info s2)
      ∧ manufacturers (device_info s1) ≡ₚ manufacturers (device_info s2).
Proof.
  assert (device (Database [dict [("manufacturer", VStr "Dell")];
                            dict [("manufacturer", VStr "HP")]] [] [])
          ≡ₚ device (Database [dict [("manufacturer", VStr "HP")];
                               dict [("manufacturer", VStr "Dell")]] [] []))
    as Hd by apply perm_swap.
  assert (alert (Database [dict [("manufacturer", VStr "Dell")];
                           dict [("manufacturer", VStr "HP")]] [] [])
          ≡ₚ alert (Database [dict [("manufacturer", VStr "HP")];
                              dict [("manufacturer", VStr "Dell")]] [] []))
    as Ha by apply perm_nil.
  split; [exact Hd |]. split; [exact Ha |].
  destruct (dashboard_order_insensitive pretty _ _ Hd Ha)
    as (s1 & s2 & H1 & H2 & H3 & _ & _ & _ & _ & H4 & _).
  exists s1, s2. exact (conj H1 (conj H2 (conj H3 H4))).
Defined.

Lemma seeded_records_conform_witness :
  empty_store (Database [] [] [])
  ∧ ∃ st',
      db_after (seed_demo_data (Some (Database [] [] [])) Z.of_nat)
      = Some st'
      ∧ ∀ c, coll st' c ≠ []
             ∧ Forall (λ d, conforms (model_of c) d) (coll st' c).
Proof.
  assert (empty_store (Database [] [] [])) as He by (intros []; reflexivity).
  split; [exact He |].
  exact (seeded_records_conform (Database [] [] []) Z.of_nat He).
Defined.

Lemma top5_without_ties_witness :
  StronglySorted (older_than "timestamp")
    (alert (Database []
              [dict [("message", VStr "Disk fragmented");
                     ("timestamp", VDatetime 1)];
               dict [("message", VStr "Fan cleaned");
                     ("timestamp", VDatetime 2)]] []))
  ∧ ∃ s,
      response
        (get_dashboard pretty
           (Some (Database []
                    [dict [("message", VStr "Disk fragmented");
                           ("timestamp", VDatetime 1)];
                     dict [("message", VStr "Fan cleaned");
                           ("timestamp", VDatetime 2)]] [])))
      = inr s
      ∧ top5 (alerts s)
        = rename_id pretty
            <$> [dict [("message", VStr "Fan cleaned");
                       ("timestamp", VDatetime 2)];
                 dict [("message", VStr "Disk fragmented");
                       ("timestamp", VDatetime 1)]].
Proof.
  assert (StronglySorted (older_than "timestamp")
            (alert (Database []
                      [dict [("message", VStr "Disk fragmented");
                             ("timestamp", VDatetime 1)];
                       dict [("message", VStr "Fan cleaned");
                             ("timestamp", VDatetime 2)]] [])))
    as H by (apply (bool_decide_unpack _); by vm_compute).
  split; [exact H |].
  exact (top5_without_ties pretty _ H).
Defined.

Lemma conforming_counters_nonnegative_witness :
  Forall (λ d, conforms SmartPerformance d)
    (smartperformance (Database [] [] [perf]))
  ∧ ∃ s z1 z2 z3 z4,
      response (get_dashboard pretty (Some (Database [] [] [perf]))) = inr s
      ∧ smart_performance s
        = {| disk_reclaimed_count := VInt z1;
             tune_pc_fix_count := VInt z2;
             malware_fix_count := VInt z3;
             internet_performance_count := VInt z4 |}
      ∧ (0 ≤ z1)%Z ∧ (0 ≤ z2)%Z ∧ (0 ≤ z3)%Z ∧ (0 ≤ z4)%Z.
Proof.
  assert (Forall (λ d, conforms SmartPerformance d)
            (smartperformance (Database [] [] [perf])))
    as H by (apply (bool_decide_unpack _); by vm_compute).
  split; [exact H |].
  exact (conforming_counters_nonnegative pretty (Database [] [] [perf]) H).
Defined.
